(** * GxvnsChatApp: the chat router (server.py) and the client's
      reconnect loop (client.py), embedded and checked against the
      specification.

    The server part models [ChatServer], the module-level registry
    [active_connections] and the per-connection coroutine
    [websocket_endpoint]; the client part models [ChatClient.send_message],
    [ChatClient.send_ws_message] and [ChatClient.websocket_loop].

    Conventions.
    - A Python value that is a [str] or [None] is a [name]
      ([Some s] / [None]).  Inbound frames follow the field schema of the
      wire format: every field, when present, holds a [str] or [null]
      ([members] holds a list of them).
    - A [WebSocket] object is compared by identity; it is a number here.
    - Every coroutine body runs without interleaving (one routing actor).
    - Writing [users.json] succeeds. *)

From stdpp Require Import gmap strings list fin_maps.
From Stdlib Require Import ZArith Lia.

Open Scope string_scope.
Open Scope list_scope.

(** ** Python values and exceptions *)

Abbreviation name := (option string).
Abbreviation WebSocket := nat.

(** The exception classes that occur.  [CancelledError] derives from
    [BaseException] only; all the others, [WebSocketDisconnect] among
    them, derive from [Exception], which is what an [except Exception]
    clause catches. *)
Inductive exn :=
| KeyError
| AttributeError
| TypeError
| RuntimeError
| JSONDecodeError
| WebSocketDisconnect
| CancelledError.

#[global] Instance exn_eq_dec : EqDecision exn.
Proof. solve_decision. Defined.

Definition is_Exception (e : exn) : bool :=
  match e with
  | CancelledError => false
  | _ => true
  end.

Inductive res (A : Type) :=
| Ok (a : A)
| Raise (e : exn).
Arguments Ok {A} a.
Arguments Raise {A} e.

(** Truthiness of a [str]-or-[None] value: [None] and the empty string are
    false. *)
Definition truthy (v : name) : bool :=
  match v with
  | Some s => negb (String.eqb s "")
  | None => false
  end.

(** ** Insertion-ordered dictionaries

    [active_connections] is iterated while sends can fail, so the order of
    its entries matters: a Python [dict] keeps insertion order, assignment
    to an existing key keeps the key's position. *)
Module PyDict.
Section dict.
Context {K V : Type} `{EqDecision K}.

Fixpoint get (k : K) (d : list (K * V)) : option V :=
  match d with
  | [] => None
  | (k', v) :: d' => if decide (k' = k) then Some v else get k d'
  end.

Definition contains (k : K) (d : list (K * V)) : bool :=
  match get k d with
  | Some _ => true
  | None => false
  end.

Fixpoint set (k : K) (v : V) (d : list (K * V)) : list (K * V) :=
  match d with
  | [] => [(k, v)]
  | (k', v') :: d' =>
      if decide (k' = k) then (k, v) :: d' else (k', v') :: set k v d'
  end.

Fixpoint del (k : K) (d : list (K * V)) : list (K * V) :=
  match d with
  | [] => []
  | (k', v') :: d' =>
      if decide (k' = k) then d' else (k', v') :: del k d'
  end.

Definition keys (d : list (K * V)) : list K := d.*1.
Definition values (d : list (K * V)) : list V := d.*2.
End dict.
End PyDict.

(** ** Wire data

    An inbound frame is the [dict] returned by [receive_json].  A field
    read with [data.get(...)] is a [name]; a field read with [data[...]] is
    an [option] around its value, [None] for a missing key. *)
Record frame := {
  msg_type : option name;
  msg_username : name;
  msg_password : name;
  msg_content : name;
  msg_timestamp : name;
  msg_group : name;
  msg_to : option name;
  msg_group_name : option name;
  msg_members : option (list name);
  msg_friend : option name;
}.

(** The frames the server writes: the response and notice dicts it builds,
    and inbound frames it forwards as they are. *)
Inductive envelope :=
| RegisterFailed (message : string)
| RegisterOk
| LoginFailed (message : string)
| LoginOk (username : name) (friends : list name)
| UserOnline (username : name)
| UserOffline (username : name)
| GroupCreated (group_name : name) (members : list name) (creator : name)
| FriendAdded (friend : name)
| FriendRequest (from : name)
| Forwarded (data : frame).

(** [response['success']] *)
Definition success (response : envelope) : bool :=
  match response with
  | RegisterOk | LoginOk _ _ => true
  | _ => false
  end.

(** [response['username']] *)
Definition response_username (response : envelope) : res name :=
  match response with
  | LoginOk username _ => Ok username
  | _ => Raise KeyError
  end.

(** ** Server state *)

(** One entry of [user_data]: [{'password': ..., 'friends': [...]}]. *)
Record user_record := {
  password : name;
  friends : list name;
}.

(** The module-level [active_connections], the attributes of the one
    [ChatServer] instance, and the channels' side of the world.
    [groups = None] stands for an instance without a [groups] attribute.
    [sent] lists the frames delivered, [closed] the [close()] calls, both
    oldest first; [peer_gone] holds the channels whose peer has
    disconnected. *)
Record server := {
  active_connections : list (name * WebSocket);
  self_active_connections : list (name * WebSocket);
  user_credentials : gmap name name;
  user_data : gmap name user_record;
  groups : option (gmap name (list name));
  users_file : gmap name user_record;
  peer_gone : list WebSocket;
  closed : list WebSocket;
  sent : list (WebSocket * envelope);
}.

Definition set_active_connections (f : list (name * WebSocket) → list (name * WebSocket))
    (s : server) : server :=
  {| active_connections := f (active_connections s);
     self_active_connections := self_active_connections s;
     user_credentials := user_credentials s;
     user_data := user_data s;
     groups := groups s;
     users_file := users_file s;
     peer_gone := peer_gone s;
     closed := closed s;
     sent := sent s |}.

Definition set_user_credentials (f : gmap name name → gmap name name)
    (s : server) : server :=
  {| active_connections := active_connections s;
     self_active_connections := self_active_connections s;
     user_credentials := f (user_credentials s);
     user_data := user_data s;
     groups := groups s;
     users_file := users_file s;
     peer_gone := peer_gone s;
     closed := closed s;
     sent := sent s |}.

Definition set_user_data (f : gmap name user_record → gmap name user_record)
    (s : server) : server :=
  {| active_connections := active_connections s;
     self_active_connections := self_active_connections s;
     user_credentials := user_credentials s;
     user_data := f (user_data s);
     groups := groups s;
     users_file := users_file s;
     peer_gone := peer_gone s;
     closed := closed s;
     sent := sent s |}.

Definition set_groups (g : gmap name (list name)) (s : server) : server :=
  {| active_connections := active_connections s;
     self_active_connections := self_active_connections s;
     user_credentials := user_credentials s;
     user_data := user_data s;
     groups := Some g;
     users_file := users_file s;
     peer_gone := peer_gone s;
     closed := closed s;
     sent := sent s |}.

Definition set_users_file (f : gmap name user_record) (s : server) : server :=
  {| active_connections := active_connections s;
     self_active_connections := self_active_connections s;
     user_credentials := user_credentials s;
     user_data := user_data s;
     groups := groups s;
     users_file := f;
     peer_gone := peer_gone s;
     closed := closed s;
     sent := sent s |}.

Definition set_peer_gone (f : list WebSocket → list WebSocket) (s : server) : server :=
  {| active_connections := active_connections s;
     self_active_connections := self_active_connections s;
     user_credentials := user_credentials s;
     user_data := user_data s;
     groups := groups s;
     users_file := users_file s;
     peer_gone := f (peer_gone s);
     closed := closed s;
     sent := sent s |}.

Definition set_closed (f : list WebSocket → list WebSocket) (s : server) : server :=
  {| active_connections := active_connections s;
     self_active_connections := self_active_connections s;
     user_credentials := user_credentials s;
     user_data := user_data s;
     groups := groups s;
     users_file := users_file s;
     peer_gone := peer_gone s;
     closed := f (closed s);
     sent := sent s |}.

Definition add_sent (l : list (WebSocket * envelope)) (s : server) : server :=
  {| active_connections := active_connections s;
     self_active_connections := self_active_connections s;
     user_credentials := user_credentials s;
     user_data := user_data s;
     groups := groups s;
     users_file := users_file s;
     peer_gone := peer_gone s;
     closed := closed s;
     sent := sent s ++ l |}.

(** ** State and exceptions

    A coroutine body is a state transformer that ends with a value or with
    a raised exception; what it changed before raising stays changed. *)
Definition M (St A : Type) : Type := St → St * res A.

Definition ret {St A} (a : A) : M St A := λ s, (s, Ok a).
Definition raise {St A} (e : exn) : M St A := λ s, (s, Raise e).

Definition bind {St A B} (c : M St A) (k : A → M St B) : M St B :=
  λ s, match c s with
       | (s', Ok a) => k a s'
       | (s', Raise e) => (s', Raise e)
       end.

Definition gets {St A} (f : St → A) : M St A := λ s, (s, Ok (f s)).
Definition modify {St} (f : St → St) : M St unit := λ s, (f s, Ok tt).

(** [try: c  except <matching e>: handler e]; an exception the handler
    re-raises propagates. *)
Definition try_except {St A} (c : M St A) (handler : exn → M St A) : M St A :=
  λ s, match c s with
       | (s', Ok a) => (s', Ok a)
       | (s', Raise e) => handler e s'
       end.

(** [try: c  except: pass] *)
Definition try_pass {St A} (c : M St A) : M St unit :=
  λ s, (fst (c s), Ok tt).

(** [d[k]] on a value that may lack the key *)
Definition getitem {St A} (v : option A) : M St A :=
  match v with
  | Some a => ret a
  | None => raise KeyError
  end.

Notation "'let*' x := c 'in' k" := (bind c (λ x, k))
  (at level 10, x name, c at level 100, k at level 200, only parsing).
Notation "'let*' '_' := c 'in' k" := (bind c (λ _, k))
  (at level 10, c at level 100, k at level 200, only parsing).

(** ** Channels *)

(** [websocket.send_json(message)]: raises on a channel the server has
    closed or whose peer has disconnected, and delivers otherwise. *)
Definition send_json (connection : WebSocket) (message : envelope) : M server unit :=
  λ s,
    if bool_decide (connection ∈ closed s) then (s, Raise RuntimeError)
    else if bool_decide (connection ∈ peer_gone s) then (s, Raise WebSocketDisconnect)
    else (add_sent [(connection, message)] s, Ok tt).

(** [websocket.close()]: the call is recorded; closing a channel that is
    already closed or gone raises. *)
Definition close (connection : WebSocket) : M server unit :=
  λ s,
    (set_closed (λ l, l ++ [connection]) s,
     if bool_decide (connection ∈ closed s) || bool_decide (connection ∈ peer_gone s)
     then Raise RuntimeError else Ok tt).

(** ** ChatServer *)

(** [ChatServer.save_user_data] *)
Definition save_user_data : M server unit :=
  λ s, (set_users_file (user_data s) s, Ok tt).

(** [ChatServer.load_user_data]: [file] is the parsed content of
    [users.json], [None] when the file is missing or is not JSON. *)
Definition load_user_data (file : option (gmap name user_record)) : M server unit :=
  match file with
  | Some data => modify (set_user_data (λ _, data))
  | None =>
      let* _ := modify (set_user_data (λ _, ∅)) in
      save_user_data
  end.

(** The module-level dictionaries and [ChatServer.__init__].  No [groups]
    attribute is created. *)
Definition module_state (file : gmap name user_record) : server :=
  {| active_connections := [];
     self_active_connections := [];
     user_credentials := ∅;
     user_data := ∅;
     groups := None;
     users_file := file;
     peer_gone := [];
     closed := [];
     sent := [] |}.

Definition init (file : option (gmap name user_record)) : server :=
  fst (load_user_data file (module_state (default ∅ file))).

(** [ChatServer.register_user] *)
Definition register_user (websocket : WebSocket) (data : frame) : M server envelope :=
  let username := msg_username data in
  let password := msg_password data in
  let* credentials := gets user_credentials in
  if bool_decide (is_Some (credentials !! username)) then
    ret (RegisterFailed "Username already exists")
  else
    let hashed_password := password in
    let* _ := modify (set_user_credentials <[username := hashed_password]>) in
    let* _ := modify (set_user_data
                <[username := {| password := hashed_password; friends := [] |}]>) in
    let* _ := save_user_data in
    ret RegisterOk.

(** [ChatServer.login_user] *)
Definition login_user (websocket : WebSocket) (data : frame) : M server envelope :=
  let username := msg_username data in
  let password := msg_password data in
  let* credentials := gets user_credentials in
  match credentials !! username with
  | None => ret (LoginFailed "Invalid username or password")
  | Some stored =>
      if bool_decide (stored ≠ password) then
        ret (LoginFailed "Invalid username or password")
      else
        let* connections := gets active_connections in
        let* _ := match PyDict.get username connections with
                  | Some old => try_pass (close old)
                  | None => ret tt
                  end in
        let* _ := modify (set_active_connections (PyDict.set username websocket)) in
        let* records := gets user_data in
        let* record := getitem (records !! username) in
        ret (LoginOk username (friends record))
  end.

(** [ChatServer.broadcast]: the loop over [active_connections.values()]. *)
Fixpoint broadcast_loop (connections : list WebSocket) (message : envelope)
    (sender : option WebSocket) : M server unit :=
  match connections with
  | [] => ret tt
  | connection :: rest =>
      let* _ := if bool_decide (Some connection ≠ sender)
                then send_json connection message else ret tt in
      broadcast_loop rest message sender
  end.

Definition broadcast (message : envelope) (sender : option WebSocket) : M server unit :=
  let* connections := gets active_connections in
  broadcast_loop (PyDict.values connections) message sender.

(** [ChatServer.send_direct_message]: the loop over
    [active_connections.items()], left at the first match. *)
Fixpoint send_direct_message_loop (items : list (name * WebSocket)) (recipient : name)
    (message : envelope) : M server unit :=
  match items with
  | [] => ret tt
  | (username, ws) :: rest =>
      if bool_decide (username = recipient) then send_json ws message
      else send_direct_message_loop rest recipient message
  end.

Definition send_direct_message (recipient : name) (message : envelope) : M server unit :=
  let* connections := gets active_connections in
  send_direct_message_loop connections recipient message.

(** [self.active_connections.get(sender)]: the instance's own dictionary,
    keyed by user name, asked for a [WebSocket] object or for [None]. *)
Definition self_connection_of (sender : option WebSocket) (s : server) : option WebSocket :=
  match sender with
  | Some _ => None
  | None => PyDict.get None (self_active_connections s)
  end.

(** [username != self.active_connections.get(sender)]: a user name differs
    from every [WebSocket] object, and from [None] unless it is [None]. *)
Definition differs_from (username : name) (found : option WebSocket) : bool :=
  match found with
  | Some _ => true
  | None => bool_decide (username ≠ None)
  end.

(** [ChatServer.broadcast_to_group] *)
Fixpoint broadcast_to_group_loop (group_members : list name) (message : envelope)
    (sender : option WebSocket) : M server unit :=
  match group_members with
  | [] => ret tt
  | username :: rest =>
      let* found := gets (self_connection_of sender) in
      let* _ := if differs_from username found
                then send_direct_message username message else ret tt in
      broadcast_to_group_loop rest message sender
  end.

Definition broadcast_to_group (group_name : name) (message : envelope)
    (sender : option WebSocket) : M server unit :=
  let* table := gets groups in
  match table with
  | None => raise AttributeError
  | Some table =>
      let group_members := default [] (table !! group_name) in
      broadcast_to_group_loop group_members message sender
  end.

(** [ChatServer.handle_call_request], [ChatServer.handle_screen_share] *)
Definition handle_call_request (message : frame) : M server unit :=
  let* recipient := getitem (msg_to message) in
  send_direct_message recipient (Forwarded message).

Definition handle_screen_share (message : frame) : M server unit :=
  let* recipient := getitem (msg_to message) in
  send_direct_message recipient (Forwarded message).

(** [ChatServer.handle_create_group], applied to
    [{'group_name': group_name, 'members': members, 'username': username}]. *)
Definition handle_create_group (group_name : name) (members : list name)
    (username : name) : M server unit :=
  let* table := gets groups in
  match table with
  | None => raise AttributeError
  | Some table =>
      let* _ := modify (set_groups (<[group_name := members]> table)) in
      let group_created := GroupCreated group_name members username in
      broadcast_to_group group_name group_created None
  end.

(** [self.user_data[who]['friends'].append(new_friend)] *)
Definition append_friend (who : name) (new_friend : name) : M server unit :=
  let* data := gets user_data in
  let* record := getitem (data !! who) in
  modify (set_user_data
    <[who := {| password := password record;
                friends := friends record ++ [new_friend] |}]>).

(** [ChatServer.handle_add_friend], applied to
    [{'friend': friend_username, 'username': username}]. *)
Definition handle_add_friend (friend_username : name) (username : name) : M server unit :=
  let* data := gets user_data in
  if bool_decide (is_Some (data !! friend_username)) then
    let* _ := append_friend username friend_username in
    let* _ := append_friend friend_username username in
    let* _ := save_user_data in
    let friend_added := FriendAdded friend_username in
    let* _ := send_direct_message username friend_added in
    send_direct_message friend_username (FriendRequest username)
  else ret tt.

(** The module-level [broadcast_message], which no code path calls. *)
Fixpoint broadcast_message_loop (items : list (name * WebSocket)) (message : envelope)
    (exclude : name) (disconnected_users : list name) : M server (list name) :=
  match items with
  | [] => ret disconnected_users
  | (username, connection) :: rest =>
      let* disconnected_users :=
        if bool_decide (username ≠ exclude) then
          try_except
            (let* _ := send_json connection message in ret disconnected_users)
            (λ e, if is_Exception e then ret (disconnected_users ++ [username])
                  else raise e)
        else ret disconnected_users in
      broadcast_message_loop rest message exclude disconnected_users
  end.

Fixpoint remove_disconnected (disconnected_users : list name) : M server unit :=
  match disconnected_users with
  | [] => ret tt
  | username :: rest =>
      let* connections := gets active_connections in
      let* _ := if PyDict.contains username connections
                then modify (set_active_connections (PyDict.del username))
                else ret tt in
      remove_disconnected rest
  end.

Definition broadcast_message (message : envelope) (exclude : name) : M server unit :=
  let* connections := gets active_connections in
  let* disconnected_users := broadcast_message_loop connections message exclude [] in
  remove_disconnected disconnected_users.

(** ** websocket_endpoint

    The coroutine's state is the shared server state and its local variable
    [username]. *)
Definition lift {A} (c : M server A) : M (server * name) A :=
  λ st, let '(s', r) := c st.1 in ((s', st.2), r).

Definition get_username : M (server * name) name := gets snd.
Definition set_username (username : name) : M (server * name) unit :=
  modify (λ st, (st.1, username)).

Definition of_res {St A} (r : res A) : M St A :=
  match r with
  | Ok a => ret a
  | Raise e => raise e
  end.

(** What [await websocket.receive_json()] does: it returns a frame, or it
    raises ([WebSocketDisconnect] when the transport has gone down,
    [JSONDecodeError] on text that is not JSON). *)
Inductive received :=
| Frame (data : frame)
| Raises (e : exn).

Definition receive_json (r : received) : M (server * name) frame :=
  match r with
  | Frame data => ret data
  | Raises e => raise e
  end.

Definition type_is (ty : name) (s : string) : bool := bool_decide (ty = Some s).

(** The [if]/[elif] chain on [data['type']]. *)
Definition handle_frame (websocket : WebSocket) (data : frame) : M (server * name) unit :=
  let* ty := getitem (msg_type data) in
  if type_is ty "register" then
    let* response := lift (register_user websocket data) in
    lift (send_json websocket response)
  else if type_is ty "login" then
    let* response := lift (login_user websocket data) in
    let* _ := lift (send_json websocket response) in
    if success response then
      let* username := of_res (response_username response) in
      let* _ := set_username username in
      lift (broadcast (UserOnline username) (Some websocket))
    else ret tt
  else if type_is ty "message" then
    if truthy (msg_group data) then
      lift (broadcast_to_group (msg_group data) (Forwarded data) (Some websocket))
    else if truthy (default None (msg_to data)) then
      let* recipient := getitem (msg_to data) in
      lift (send_direct_message recipient (Forwarded data))
    else
      lift (broadcast (Forwarded data) (Some websocket))
  else if type_is ty "call_request" then
    lift (handle_call_request data)
  else if type_is ty "screen_share" then
    lift (handle_screen_share data)
  else if type_is ty "create_group" then
    let* group_name := getitem (msg_group_name data) in
    let* members := getitem (msg_members data) in
    let* username := get_username in
    lift (handle_create_group group_name members username)
  else if type_is ty "add_friend" then
    let* friend := getitem (msg_friend data) in
    let* username := get_username in
    lift (handle_add_friend friend username)
  else ret tt.

(** One turn of [while True]: the inner [try] statement.  Both of its
    handlers log and [continue]. *)
Definition loop_body (websocket : WebSocket) (r : received) : M (server * name) unit :=
  try_except
    (let* data := receive_json r in handle_frame websocket data)
    (λ e, if bool_decide (e = JSONDecodeError) then ret tt
          else if is_Exception e then ret tt
          else raise e).

(** The bodies of the two outer handlers:
    [if username and username in active_connections: del ...], followed
    under [except WebSocketDisconnect] by the [user_offline] broadcast. *)
Definition disconnect_cleanup (notify : bool) : M (server * name) unit :=
  let* username := get_username in
  let* connections := lift (gets active_connections) in
  if truthy username && PyDict.contains username connections then
    let* _ := lift (modify (set_active_connections (PyDict.del username))) in
    if notify then lift (broadcast (UserOffline username) None) else ret tt
  else ret tt.

(** Where the coroutine stands after a turn of the loop. *)
Inductive status :=
| Running
| Returned
| Propagated (e : exn).

Definition finish (c : M (server * name) unit) (st : server * name)
    : (server * name) * status :=
  match c st with
  | (st', Ok _) => (st', Returned)
  | (st', Raise e) => (st', Propagated e)
  end.

(** One turn of the loop under the outer [try] statement. *)
Definition websocket_endpoint_turn (websocket : WebSocket) (r : received)
    (st : server * name) : (server * name) * status :=
  match loop_body websocket r st with
  | (st', Ok _) => (st', Running)
  | (st', Raise e) =>
      if bool_decide (e = WebSocketDisconnect) then finish (disconnect_cleanup true) st'
      else if is_Exception e then finish (disconnect_cleanup false) st'
      else (st', Propagated e)
  end.

(** ** The server and its connections

    [locals] holds the running [websocket_endpoint] coroutines, each with
    the value of its [username]. *)
Record system := {
  srv : server;
  locals : gmap WebSocket name;
}.

Inductive event :=
| Accept (websocket : WebSocket)
| Receive (websocket : WebSocket) (r : received)
| Disconnect (websocket : WebSocket).

Definition turn (websocket : WebSocket) (r : received) (sys : system) : system :=
  match locals sys !! websocket with
  | None => sys
  | Some username =>
      match websocket_endpoint_turn websocket r (srv sys, username) with
      | ((s', username'), Running) =>
          {| srv := s'; locals := <[websocket := username']> (locals sys) |}
      | ((s', _), _) =>
          {| srv := s'; locals := delete websocket (locals sys) |}
      end
  end.

(** [Accept]: a new coroutine starts with [username = None].
    [Disconnect]: the peer goes away and the pending [receive_json] of
    that connection raises [WebSocketDisconnect]. *)
Definition step (sys : system) (ev : event) : system :=
  match ev with
  | Accept websocket =>
      {| srv := srv sys; locals := <[websocket := None]> (locals sys) |}
  | Receive websocket r => turn websocket r sys
  | Disconnect websocket =>
      turn websocket (Raises WebSocketDisconnect)
        {| srv := set_peer_gone (λ l, websocket :: l) (srv sys); locals := locals sys |}
  end.

Definition run (sys : system) (evs : list event) : system := foldl step sys evs.

Definition start (file : option (gmap name user_record)) : system :=
  {| srv := init file; locals := ∅ |}.

(** Frames as clients build them. *)
Definition register_frame (username password : name) : frame :=
  {| msg_type := Some (Some "register"); msg_username := username;
     msg_password := password;
     msg_content := None; msg_timestamp := None; msg_group := None;
     msg_to := None; msg_group_name := None; msg_members := None;
     msg_friend := None |}.

Definition login_frame (username password : name) : frame :=
  {| msg_type := Some (Some "login"); msg_username := username;
     msg_password := password;
     msg_content := None; msg_timestamp := None; msg_group := None;
     msg_to := None; msg_group_name := None; msg_members := None;
     msg_friend := None |}.

Definition message_frame (username content : name) (group : name) (to : option name)
    : frame :=
  {| msg_type := Some (Some "message"); msg_username := username;
     msg_password := None;
     msg_content := content; msg_timestamp := None; msg_group := group;
     msg_to := to; msg_group_name := None; msg_members := None;
     msg_friend := None |}.

Definition create_group_frame (group_name : name) (members : list name) : frame :=
  {| msg_type := Some (Some "create_group"); msg_username := None;
     msg_password := None;
     msg_content := None; msg_timestamp := None; msg_group := None;
     msg_to := None; msg_group_name := Some group_name;
     msg_members := Some members; msg_friend := None |}.

Definition add_friend_frame (friend : name) : frame :=
  {| msg_type := Some (Some "add_friend"); msg_username := None;
     msg_password := None;
     msg_content := None; msg_timestamp := None; msg_group := None;
     msg_to := None; msg_group_name := None; msg_members := None;
     msg_friend := Some friend |}.

(** ** Reading the model *)

(** [membersOf]: the members recorded for a group, if any. *)
Definition membersOf (s : server) (group_name : name) : option (list name) :=
  match groups s with
  | Some table => table !! group_name
  | None => None
  end.

(** [lookup]: the channel registered for a user, if any. *)
Definition lookup (s : server) (username : name) : option WebSocket :=
  PyDict.get username (active_connections s).

(** [friendsOf] *)
Definition friendsOf (s : server) (username : name) : list name :=
  match user_data s !! username with
  | Some record => friends record
  | None => []
  end.

(** A channel is open when the server has not closed it and its peer is
    still there. *)
Definition is_open (s : server) (connection : WebSocket) : Prop :=
  (connection ∉ closed s) ∧ (connection ∉ peer_gone s).

Definition all_open (s : server) : Prop :=
  Forall (λ item, is_open s item.2) (active_connections s).

#[global] Instance is_open_dec s connection : Decision (is_open s connection).
Proof. unfold is_open. apply _. Defined.

#[global] Instance all_open_dec s : Decision (all_open s).
Proof. unfold all_open. apply _. Defined.

(** What a direct message delivers when the registered channel is open. *)
Definition direct_delivery (items : list (name * WebSocket)) (recipient : name)
    (message : envelope) : list (WebSocket * envelope) :=
  match PyDict.get recipient items with
  | Some ws => [(ws, message)]
  | None => []
  end.

(** What the group loop delivers when every registered channel is open. *)
Definition group_delivery (s : server) (group_members : list name) (message : envelope)
    (sender : option WebSocket) : list (WebSocket * envelope) :=
  flat_map (λ username,
      if differs_from username (self_connection_of sender s)
      then direct_delivery (active_connections s) username message
      else [])
    group_members.


(** ** Statements of the specification that the code is compared with *)


(** Router, unknown group: the turn that routes [data] sends exactly one
    frame, an error, to the sender's channel. *)
Definition one_error_to_sender (s : server) (websocket : WebSocket) (username : name)
    (data : frame) : Prop :=
  ∃ error,
    sent (websocket_endpoint_turn websocket (Frame data) (s, username)).1.1
    = sent s ++ [(websocket, error)].

(** ** Example states *)

(** A server started without a [users.json], on which "a" has registered
    and logged in over channel 1. *)
Definition a_online : system :=
  run (start None)
    [Accept 1;
     Receive 1 (Frame (register_frame (Some "a") (Some "pw")));
     Receive 1 (Frame (login_frame (Some "a") (Some "pw")))].

(** The same server given an empty Group Table. *)
Definition a_online_with_groups : server := set_groups ∅ (srv a_online).

(** "a", "b" and "c" have registered and logged in, over channels 1, 2
    and 3, in that order. *)
Definition three_online : system :=
  run (start None)
    [Accept 1; Accept 2; Accept 3;
     Receive 1 (Frame (register_frame (Some "a") (Some "pa")));
     Receive 2 (Frame (register_frame (Some "b") (Some "pb")));
     Receive 3 (Frame (register_frame (Some "c") (Some "pc")));
     Receive 1 (Frame (login_frame (Some "a") (Some "pa")));
     Receive 2 (Frame (login_frame (Some "b") (Some "pb")));
     Receive 3 (Frame (login_frame (Some "c") (Some "pc")))].

(** c's chat line, with neither [to] nor [group]. *)
Definition hi_from_c : frame := message_frame (Some "c") (Some "hi") None None.

(** "a" has registered over channel 1; channels 1 and 2 are connected and
    nobody has logged in. *)
Definition a_registered : system :=
  run (start None)
    [Accept 1; Accept 2;
     Receive 1 (Frame (register_frame (Some "a") (Some "pw")))].

(** "a" has logged in over channel 1 and then again over channel 2. *)
Definition a_superseded : system :=
  run a_registered
    [Receive 1 (Frame (login_frame (Some "a") (Some "pw")));
     Receive 2 (Frame (login_frame (Some "a") (Some "pw")))].

(** The [register] frames for one user name, one per requesting channel
    with the password it asks for. *)
Definition register_requests (username : name) (requests : list (WebSocket * name))
    : list event :=
  map (λ request, Receive request.1 (Frame (register_frame username request.2)))
    requests.

(** The answer to each request of a list when the name is taken. *)
Definition rejections (requests : list (WebSocket * name)) : list (WebSocket * envelope) :=
  map (λ request, (request.1, RegisterFailed "Username already exists")) requests.


(** "a" and "b" have registered; only "a" has logged in, over channel 1. *)
Definition b_offline : system :=
  run (start None)
    [Accept 1; Accept 2;
     Receive 1 (Frame (register_frame (Some "a") (Some "pa")));
     Receive 2 (Frame (register_frame (Some "b") (Some "pb")));
     Receive 1 (Frame (login_frame (Some "a") (Some "pa")))].

(** * The client: client.py *)
Module Client.
Local Open Scope Z_scope.

(** [str.strip()] on ASCII text: the characters Python counts as white
    space are 9 to 13, 28 to 31 and 32. *)
Definition is_space (a : Ascii.ascii) : bool :=
  let n := Ascii.nat_of_ascii a in
  ((9 <=? n)%nat && (n <=? 13)%nat) || ((28 <=? n)%nat && (n <=? 32)%nat).

Fixpoint lstrip (s : string) : string :=
  match s with
  | String a s' => if is_space a then lstrip s' else s
  | EmptyString => EmptyString
  end.

Definition strip (s : string) : string :=
  String.rev (lstrip (String.rev (lstrip s))).

(** What goes through [message_queue]. *)
Inductive queue_item :=
| STATUS (text : string) (color : string)
| CHAT (line : string).

(** The JSON texts the client writes to the transport. *)
Inductive wire_frame :=
| Join (username : string)
| Message (username : string) (content : string) (timestamp : string).

(** Where [websocket_loop] stands: about to connect, inside the receive
    loop, or in [asyncio.sleep] at the bottom of the outer loop. *)
Inductive phase_of_loop :=
| Connecting
| Receiving
| Sleeping.

(** The attributes of [ChatClient] that the network side uses, the text of
    the entry widget, what the two display widgets show, and the world:
    [scheduled] holds the arguments of the [send_ws_message] coroutines
    handed to the event loop and not yet run, [wire] the frames written
    with the connection they went to, [slept] the arguments of
    [asyncio.sleep], all oldest first. *)
Record client := {
  username : string;
  ws_url : string;
  message_input : string;
  message_queue : list queue_item;
  status_label : string * string;
  chat_display : list string;
  websocket : option nat;
  reconnect_delay : Z;
  max_reconnect_delay : Z;
  connected : bool;
  phase : phase_of_loop;
  scheduled : list string;
  wire : list (nat * wire_frame);
  slept : list Z;
}.

(** [ChatClient.__init__] *)
Definition init (username ws_url : string) : client :=
  {| username := username; ws_url := ws_url;
     message_input := ""; message_queue := [];
     status_label := ("Connecting...", "orange"); chat_display := [];
     websocket := None; reconnect_delay := 1; max_reconnect_delay := 30;
     connected := false; phase := Connecting;
     scheduled := []; wire := []; slept := [] |}.

Definition set_message_input (text : string) (c : client) : client :=
  {| username := username c; ws_url := ws_url c;
     message_input := text; message_queue := message_queue c;
     status_label := status_label c; chat_display := chat_display c;
     websocket := websocket c; reconnect_delay := reconnect_delay c;
     max_reconnect_delay := max_reconnect_delay c;
     connected := connected c; phase := phase c;
     scheduled := scheduled c; wire := wire c; slept := slept c |}.

(** [self.message_queue.put(item)] *)
Definition put (item : queue_item) (c : client) : client :=
  {| username := username c; ws_url := ws_url c;
     message_input := message_input c; message_queue := message_queue c ++ [item];
     status_label := status_label c; chat_display := chat_display c;
     websocket := websocket c; reconnect_delay := reconnect_delay c;
     max_reconnect_delay := max_reconnect_delay c;
     connected := connected c; phase := phase c;
     scheduled := scheduled c; wire := wire c; slept := slept c |}.

Definition set_link (websocket : option nat) (connected : bool) (c : client) : client :=
  {| username := username c; ws_url := ws_url c;
     message_input := message_input c; message_queue := message_queue c;
     status_label := status_label c; chat_display := chat_display c;
     websocket := websocket; reconnect_delay := reconnect_delay c;
     max_reconnect_delay := max_reconnect_delay c;
     connected := connected; phase := phase c;
     scheduled := scheduled c; wire := wire c; slept := slept c |}.

Definition set_reconnect_delay (delay : Z) (c : client) : client :=
  {| username := username c; ws_url := ws_url c;
     message_input := message_input c; message_queue := message_queue c;
     status_label := status_label c; chat_display := chat_display c;
     websocket := websocket c; reconnect_delay := delay;
     max_reconnect_delay := max_reconnect_delay c;
     connected := connected c; phase := phase c;
     scheduled := scheduled c; wire := wire c; slept := slept c |}.

Definition set_phase (p : phase_of_loop) (c : client) : client :=
  {| username := username c; ws_url := ws_url c;
     message_input := message_input c; message_queue := message_queue c;
     status_label := status_label c; chat_display := chat_display c;
     websocket := websocket c; reconnect_delay := reconnect_delay c;
     max_reconnect_delay := max_reconnect_delay c;
     connected := connected c; phase := p;
     scheduled := scheduled c; wire := wire c; slept := slept c |}.

Definition set_scheduled (l : list string) (c : client) : client :=
  {| username := username c; ws_url := ws_url c;
     message_input := message_input c; message_queue := message_queue c;
     status_label := status_label c; chat_display := chat_display c;
     websocket := websocket c; reconnect_delay := reconnect_delay c;
     max_reconnect_delay := max_reconnect_delay c;
     connected := connected c; phase := phase c;
     scheduled := l; wire := wire c; slept := slept c |}.

(** [await websocket.send(text)], when it succeeds *)
Definition write (connection : nat) (text : wire_frame) (c : client) : client :=
  {| username := username c; ws_url := ws_url c;
     message_input := message_input c; message_queue := message_queue c;
     status_label := status_label c; chat_display := chat_display c;
     websocket := websocket c; reconnect_delay := reconnect_delay c;
     max_reconnect_delay := max_reconnect_delay c;
     connected := connected c; phase := phase c;
     scheduled := scheduled c; wire := wire c ++ [(connection, text)];
     slept := slept c |}.

(** [await asyncio.sleep(delay)], on entry *)
Definition sleep (delay : Z) (c : client) : client :=
  {| username := username c; ws_url := ws_url c;
     message_input := message_input c; message_queue := message_queue c;
     status_label := status_label c; chat_display := chat_display c;
     websocket := websocket c; reconnect_delay := reconnect_delay c;
     max_reconnect_delay := max_reconnect_delay c;
     connected := connected c; phase := Sleeping;
     scheduled := scheduled c; wire := wire c; slept := slept c ++ [delay] |}.

Definition set_display (label : string * string) (lines : list string) (c : client)
    : client :=
  {| username := username c; ws_url := ws_url c;
     message_input := message_input c; message_queue := [];
     status_label := label; chat_display := lines;
     websocket := websocket c; reconnect_delay := reconnect_delay c;
     max_reconnect_delay := max_reconnect_delay c;
     connected := connected c; phase := phase c;
     scheduled := scheduled c; wire := wire c; slept := slept c |}.

(** An exception as the client sees it: whether it is a
    [ConnectionClosed], and its text. *)
Record failure := {
  connection_closed : bool;
  text_of : string;
}.

(** ** The user-interface side *)

Definition not_connected_notice : queue_item :=
  STATUS "Not connected to server. Message will be sent when connected." "orange".

(** [ChatClient.send_message] *)
Definition send_message (c : client) : client :=
  let message := strip (message_input c) in
  if String.eqb message "" then c
  else
    let c := set_message_input "" c in
    if negb (connected c) then put not_connected_notice c
    else set_scheduled (scheduled c ++ [message]) c.

(** [ChatClient.process_message_queue]: the queue is drained; a status
    item sets the label, a chat item adds a line. *)
Fixpoint drain (items : list queue_item) (label : string * string)
    (lines : list string) : (string * string) * list string :=
  match items with
  | [] => (label, lines)
  | STATUS text color :: rest => drain rest (text, color) lines
  | CHAT line :: rest => drain rest label (lines ++ [line])
  end.

Definition process_message_queue (c : client) : client :=
  let '(label, lines) := drain (message_queue c) (status_label c) (chat_display c) in
  set_display label lines c.

(** ** The network side *)

(** How [await self.websocket.send(...)] ends in [send_ws_message]. *)
Inductive send_outcome :=
| Sent (timestamp : string)
| SendRaises (e : failure).

(** [ChatClient.send_ws_message] *)
Definition send_ws_message (message : string) (outcome : send_outcome) (c : client)
    : client :=
  match websocket c with
  | None => put (STATUS "Not connected to server" "red") c
  | Some connection =>
      match outcome with
      | Sent timestamp =>
          let c := write connection (Message (username c) message timestamp) c in
          set_reconnect_delay 1 c
      | SendRaises e =>
          let c := put (STATUS ("Error sending message: " +:+ text_of e) "red") c in
          let c := set_link (websocket c) false c in
          set_link None (connected c) c
      end
  end.

(** The two handlers of the outer [try] of [websocket_loop]. *)
Definition connection_lost (e : failure) (c : client) : client :=
  let c := set_link None false c in
  if connection_closed e
  then put (STATUS "Disconnected. Reconnecting..." "orange") c
  else put (STATUS ("Error: " +:+ text_of e) "red") c.

(** How one attempt of [websockets.connect] and the [join] frame ends. *)
Inductive connect_outcome :=
| ConnectRaises (e : failure)
| JoinRaises (connection : nat) (e : failure)
| Joined (connection : nat).

(** What [await websocket.recv()] and the handling of the text bring: a
    chat line (with its time already formatted), a system notice, a frame
    of another type, text that is not JSON, a closed connection, or any
    other exception. *)
Inductive recv_outcome :=
| ChatLine (time username content : string)
| SystemNotice (content : string)
| OtherFrame
| NotJSON
| ConnectionClosed
| RecvRaises.

(** The top of the outer loop, up to the receive loop or to the sleep. *)
Definition connect (outcome : connect_outcome) (c : client) : client :=
  match outcome with
  | ConnectRaises e =>
      let c := connection_lost e c in
      sleep (reconnect_delay c) c
  | JoinRaises connection e =>
      let c := set_link (Some connection) true c in
      let c := put (STATUS "Connected" "green") c in
      let c := connection_lost e c in
      sleep (reconnect_delay c) c
  | Joined connection =>
      let c := set_link (Some connection) true c in
      let c := put (STATUS "Connected" "green") c in
      let c := write connection (Join (username c)) c in
      let c := set_reconnect_delay 1 c in
      set_phase Receiving c
  end.

(** One turn of the receive loop; a [break] leaves the [async with] block
    and reaches the sleep. *)
Definition receive (outcome : recv_outcome) (c : client) : client :=
  match outcome with
  | ChatLine time username content =>
      put (CHAT ("[" +:+ time +:+ "] " +:+ username +:+ ": " +:+ content)) c
  | SystemNotice content => put (CHAT ("System: " +:+ content)) c
  | OtherFrame => c
  | NotJSON => c
  | ConnectionClosed => sleep (reconnect_delay c) c
  | RecvRaises => sleep (reconnect_delay c) c
  end.

(** After the sleep: the delay doubles, up to the maximum. *)
Definition wake (c : client) : client :=
  let c := set_reconnect_delay
             (Z.min (reconnect_delay c * 2) (max_reconnect_delay c)) c in
  set_phase Connecting c.

(** What can happen next: on the network side a connection attempt ends,
    a receive ends, the sleep ends, or a scheduled [send_ws_message] runs;
    on the user-interface side the user types, presses Send, or the queue
    is polled. *)
Inductive event :=
| Connect (outcome : connect_outcome)
| Recv (outcome : recv_outcome)
| Wake
| RunSend (outcome : send_outcome)
| Typed (text : string)
| PressSend
| Poll.

Definition step (c : client) (ev : event) : client :=
  match ev, phase c with
  | Connect outcome, Connecting => connect outcome c
  | Recv outcome, Receiving => receive outcome c
  | Wake, Sleeping => wake c
  | RunSend outcome, _ =>
      match scheduled c with
      | message :: rest => send_ws_message message outcome (set_scheduled rest c)
      | [] => c
      end
  | Typed text, _ => set_message_input text c
  | PressSend, _ => send_message c
  | Poll, _ => process_message_queue c
  | _, _ => c
  end.

Definition run (c : client) (evs : list event) : client := foldl step c evs.



End Client.

(** * What every handler keeps *)

(** The state of a server that has been started and has served requests:
    there is no [groups] attribute, [users.json] holds [user_data], every
    stored credential has a user record with the same password, the
    registry has one entry per key, and its keys are users with
    credentials. *)
Definition consistent (s : server) : Prop :=
  groups s = None
  ∧ users_file s = user_data s
  ∧ (∀ u p, user_credentials s !! u = Some p →
       ∃ record, user_data s !! u = Some record ∧ password record = p)
  ∧ NoDup (PyDict.keys (active_connections s))
  ∧ (∀ u, is_Some (lookup s u) → is_Some (user_credentials s !! u)).

(** What no handler takes back: registry entries, stored credentials,
    user records, frames sent and [close()] calls made. *)
Definition keeps (s s' : server) : Prop :=
  (∀ u, is_Some (lookup s u) → is_Some (lookup s' u))
  ∧ (∀ u p, user_credentials s !! u = Some p → user_credentials s' !! u = Some p)
  ∧ (∀ u, is_Some (user_data s !! u) → is_Some (user_data s' !! u))
  ∧ (∃ l, sent s' = sent s ++ l)
  ∧ (∃ l, closed s' = closed s ++ l).

Definition sound (s s' : server) : Prop :=
  (consistent s → consistent s') ∧ keeps s s'.

(** A computation over a state that contains the server. *)
Definition preserves {St A} (proj : St → server) (c : M St A) : Prop :=
  ∀ st, sound (proj st) (proj (c st).1).

(** A [users.json] left by an earlier run, in which "a" has the friend
    "b". *)
Definition saved_users : gmap name user_record :=
  {[ Some "a" := {| password := Some "pw"; friends := [Some "b"] |};
     Some "b" := {| password := Some "pb"; friends := [Some "a"] |} ]}.

(** The frames a broadcast from [sender] delivers when every registered
    channel is open: one per registered channel other than the sender's,
    in registry order. *)
Definition broadcast_delivery (s : server) (message : envelope) (sender : WebSocket)
    : list (WebSocket * envelope) :=
  map (λ ws, (ws, message))
    (filter (λ ws, ws ≠ sender) (PyDict.values (active_connections s))).

(** The seven values of [data['type']] that [websocket_endpoint] acts on. *)
Definition known_types : list name :=
  [Some "register"; Some "login"; Some "message"; Some "call_request";
   Some "screen_share"; Some "create_group"; Some "add_friend"].

Definition signaling_frame (type : string) (to : option name) (content : name) : frame :=
  {| msg_type := Some (Some type); msg_username := None; msg_password := None;
     msg_content := content; msg_timestamp := None; msg_group := None;
     msg_to := to; msg_group_name := None; msg_members := None;
     msg_friend := None |}.

(** The registry entries [broadcast_message] serves: not the excluded
    user's, and with an open channel. *)
Definition served (s : server) (exclude : name) (item : name * WebSocket) : Prop :=
  item.1 ≠ exclude ∧ is_open s item.2.

(** The entries it finds dead. *)
Definition found_dead (s : server) (exclude : name) (item : name * WebSocket) : Prop :=
  item.1 ≠ exclude ∧ ¬ is_open s item.2.

#[global] Instance served_dec s exclude item : Decision (served s exclude item).
Proof. unfold served. apply _. Defined.

#[global] Instance found_dead_dec s exclude item : Decision (found_dead s exclude item).
Proof. unfold found_dead. apply _. Defined.

(** * The client's frames on the server *)

(** The two JSON texts [ChatClient] writes (client.py, [websocket_loop] and
    [send_ws_message]) as the server's [receive_json] returns them. *)
Definition to_server (text : Client.wire_frame) : frame :=
  match text with
  | Client.Join username =>
      {| msg_type := Some (Some "join"); msg_username := Some username;
         msg_password := None; msg_content := None; msg_timestamp := None;
         msg_group := None; msg_to := None; msg_group_name := None;
         msg_members := None; msg_friend := None |}
  | Client.Message username content timestamp =>
      {| msg_type := Some (Some "message"); msg_username := Some username;
         msg_password := None; msg_content := Some content;
         msg_timestamp := Some timestamp;
         msg_group := None; msg_to := None; msg_group_name := None;
         msg_members := None; msg_friend := None |}
  end.

(** Every frame that arrives on [websocket] is one a [ChatClient] writes. *)
Definition from_chat_client (websocket : WebSocket) (ev : event) : Prop :=
  match ev with
  | Receive ws (Frame data) => ws = websocket → ∃ text, data = to_server text
  | _ => True
  end.

(** [websocket] is not in the registry and nothing has been sent to it. *)
Definition unheard (websocket : WebSocket) (s : server) : Prop :=
  (websocket ∉ PyDict.values (active_connections s))
  ∧ Forall (λ item, item.1 ≠ websocket) (sent s).

(** A computation keeps a property of the server state. *)
Definition maintains {St A} (proj : St → server) (I : server → Prop) (c : M St A) : Prop :=
  ∀ st, I (proj st) → I (proj (c st).1).

(** A [ChatClient] on channel 1 joins and says "hi" while "b" registers,
    logs in and talks to everybody on channel 2. *)
Definition client_and_b : list event :=
  [Accept 1; Accept 2;
   Receive 1 (Frame (to_server (Client.Join "ann")));
   Receive 2 (Frame (register_frame (Some "b") (Some "pb")));
   Receive 2 (Frame (login_frame (Some "b") (Some "pb")));
   Receive 1 (Frame (to_server (Client.Message "ann" "hi" "2024-01-01T12:00:00")));
   Receive 2 (Frame (message_frame (Some "b") (Some "hello") None None))].

(** * More on the client *)

(** The sleeps of [n] failed attempts in a row that start with the delay
    at [delay]. *)
Fixpoint backoff_schedule (delay : Z) (n : nat) : list Z :=
  match n with
  | O => []
  | S n => delay :: backoff_schedule (Z.min (delay * 2) 30) n
  end.

(** A connection attempt that does not reach the receive loop. *)
Definition failed (outcome : Client.connect_outcome) : Prop :=
  ∀ connection, outcome ≠ Client.Joined connection.

(** One attempt after the other, each followed by the end of its sleep. *)
Definition attempts (outcomes : list Client.connect_outcome) : list Client.event :=
  flat_map (λ outcome, [Client.Connect outcome; Client.Wake]) outcomes.

(** [put] for each item in turn. *)
Definition puts (items : list Client.queue_item) (c : Client.client) : Client.client :=
  foldl (λ c item, Client.put item c) c items.

Definition chat_lines (items : list Client.queue_item) : list string :=
  omap (λ item, match item with
                | Client.CHAT line => Some line
                | Client.STATUS _ _ => None
                end) items.

Definition is_chat (item : Client.queue_item) : Prop :=
  match item with
  | Client.CHAT _ => True
  | Client.STATUS _ _ => False
  end.

(** Every chat message on the wire went to a connection that also carries
    the client's [join], and bears the client's user name. *)
Definition joined_before_talking (c : Client.client) : Prop :=
  ∀ connection username content timestamp,
    (connection, Client.Message username content timestamp) ∈ Client.wire c →
    (connection, Client.Join (Client.username c)) ∈ Client.wire c
    ∧ username = Client.username c.

(** The connection the client holds has had its [join], and so has every
    connection that carries a chat message. *)
Definition joined (c : Client.client) : Prop :=
  (∀ connection, Client.websocket c = Some connection →
     (connection, Client.Join (Client.username c)) ∈ Client.wire c)
  ∧ joined_before_talking c.
(** ** Facts about insertion-ordered dictionaries *)
Section dict_facts.
Context {K V : Type} `{EqDecision K}.
Implicit Types (k : K) (v : V) (d : list (K * V)).
Import PyDict.

Lemma get_set_eq k v d : get k (set k v d) = Some v.
Proof.
  induction d as [|[k' v'] d IH]; simpl.
  - by rewrite decide_True.
  - destruct (decide (k' = k)) as [->|Hne]; simpl.
    + by rewrite decide_True.
    + by rewrite decide_False.
Qed.

Lemma get_set_ne k k' v d : k ≠ k' → get k' (set k v d) = get k' d.
Proof.
  intros Hne. induction d as [|[k0 v0] d IH]; simpl.
  - by rewrite decide_False.
  - destruct (decide (k0 = k)) as [->|Hne0]; simpl.
    + by rewrite !decide_False.
    + by rewrite IH.
Qed.

Lemma keys_set_in k v d :
  is_Some (get k d) → keys (set k v d) = keys d.
Proof.
  induction d as [|[k' v'] d IH]; simpl.
  - by intros [? ?].
  - destruct (decide (k' = k)) as [->|Hne]; simpl; [done|].
    intros Hs. unfold keys in *. simpl. by rewrite IH.
Qed.

Lemma keys_set_new k v d :
  get k d = None → keys (set k v d) = keys d ++ [k].
Proof.
  induction d as [|[k' v'] d IH]; simpl; [done|].
  destruct (decide (k' = k)) as [->|Hne]; simpl; [done|].
  intros Hn. unfold keys in *. simpl. by rewrite IH.
Qed.

Lemma get_None_keys k d : get k d = None ↔ k ∉ keys d.
Proof.
  unfold keys. induction d as [|[k' v'] d IH]; simpl.
  - split; [intros _; apply not_elem_of_nil | done].
  - rewrite not_elem_of_cons. destruct (decide (k' = k)) as [->|Hne].
    + split; [done | by intros [? _]].
    + rewrite IH. split; [by intros ? | by intros [_ ?]].
Qed.

Lemma NoDup_keys_set k v d : NoDup (keys d) → NoDup (keys (set k v d)).
Proof.
  intros Hnd. destruct (get k d) as [v0|] eqn:Hg.
  - by rewrite keys_set_in.
  - rewrite keys_set_new by done.
    apply NoDup_app. split; [done|]. split.
    + intros x Hx Hin. apply list_elem_of_singleton in Hin as ->.
      by apply get_None_keys in Hg.
    + apply NoDup_singleton.
Qed.

Lemma get_Some_elem k v d : get k d = Some v → (k, v) ∈ d.
Proof.
  induction d as [|[k' v'] d IH]; simpl; [done|].
  destruct (decide (k' = k)) as [->|Hne].
  - intros [= ->]. apply list_elem_of_here.
  - intros Hg. apply list_elem_of_further. by apply IH.
Qed.

Lemma elem_get_NoDup k v d : NoDup (keys d) → (k, v) ∈ d → get k d = Some v.
Proof.
  unfold keys. induction d as [|[k' v'] d IH]; simpl.
  - intros _ Hin. by apply elem_of_nil in Hin.
  - rewrite NoDup_cons. intros [Hnin Hnd] Hin.
    apply elem_of_cons in Hin as [[= -> ->]|Hin].
    + by rewrite decide_True.
    + destruct (decide (k' = k)) as [->|Hne]; [|by apply IH].
      exfalso. apply Hnin. apply list_elem_of_fmap. by exists (k, v).
Qed.

Lemma get_del_eq k d : NoDup (keys d) → get k (del k d) = None.
Proof.
  unfold keys. induction d as [|[k' v'] d IH]; simpl; [done|].
  rewrite NoDup_cons. intros [Hnin Hnd].
  destruct (decide (k' = k)) as [->|Hne]; simpl.
  - by apply get_None_keys.
  - rewrite decide_False by done. by apply IH.
Qed.

Lemma get_del_ne k k' d : k ≠ k' → get k' (del k d) = get k' d.
Proof.
  intros Hne. induction d as [|[k0 v0] d IH]; simpl; [done|].
  destruct (decide (k0 = k)) as [->|Hne0]; simpl.
  - by rewrite decide_False.
  - by rewrite IH.
Qed.
End dict_facts.

(** ** Sending: basic facts *)

Lemma add_sent_nil s : add_sent [] s = s.
Proof. destruct s. unfold add_sent. simpl. by rewrite app_nil_r. Qed.

Lemma add_sent_app l1 l2 s : add_sent l2 (add_sent l1 s) = add_sent (l1 ++ l2) s.
Proof. unfold add_sent. simpl. by rewrite app_assoc. Qed.

Lemma send_json_open s connection message :
  is_open s connection →
  send_json connection message s = (add_sent [(connection, message)] s, Ok tt).
Proof.
  intros [Hc Hg]. unfold send_json.
  by rewrite !bool_decide_eq_false_2.
Qed.

Lemma send_direct_message_loop_open s items recipient message :
  Forall (λ item, is_open s item.2) items →
  send_direct_message_loop items recipient message s
  = (add_sent (direct_delivery items recipient message) s, Ok tt).
Proof.
  unfold direct_delivery.
  induction 1 as [|[username ws] items Hopen _ IH]; simpl.
  - by rewrite add_sent_nil.
  - destruct (decide (username = recipient)) as [->|Hne].
    + rewrite bool_decide_eq_true_2 by done. by apply send_json_open.
    + by rewrite bool_decide_eq_false_2.
Qed.

Lemma send_direct_message_open s recipient message :
  all_open s →
  send_direct_message recipient message s
  = (add_sent (direct_delivery (active_connections s) recipient message) s, Ok tt).
Proof.
  intros Hopen. unfold send_direct_message, bind, gets.
  by apply send_direct_message_loop_open.
Qed.

Lemma all_open_add_sent l s : all_open s → all_open (add_sent l s).
Proof. done. Qed.

Lemma broadcast_to_group_loop_open s group_members message sender :
  all_open s →
  broadcast_to_group_loop group_members message sender s
  = (add_sent (group_delivery s group_members message sender) s, Ok tt).
Proof.
  unfold group_delivery.
  revert s. induction group_members as [|username rest IH]; intros s Hopen; simpl.
  - by rewrite add_sent_nil.
  - unfold bind at 1. unfold gets at 1. unfold bind at 1.
    destruct (differs_from username (self_connection_of sender s)).
    + rewrite send_direct_message_open by done.
      rewrite IH by done. by rewrite add_sent_app.
    + unfold ret at 1. by rewrite IH.
Qed.

(** ** Group Table *)


(** A [ChatServer] as [__init__] leaves it has no [groups] attribute:
    creating a group raises [AttributeError] and records nothing. *)
Lemma handle_create_group_without_table s group_name members username :
  groups s = None →
  handle_create_group group_name members username s = (s, Raise AttributeError).
Proof. intros Htable. unfold handle_create_group, bind, gets. by rewrite Htable. Qed.

Lemma groups_init file : groups (init file) = None.
Proof. by destruct file. Qed.




(** ** Router: a message for a group *)

Lemma broadcast_to_group_unknown s group_name message sender :
  membersOf s group_name = None →
  broadcast_to_group group_name message sender s = (s, Ok tt)
  ∨ broadcast_to_group group_name message sender s = (s, Raise AttributeError).
Proof.
  unfold membersOf, broadcast_to_group, bind, gets.
  destruct (groups s) as [table|]; [|by right].
  intros ->. by left.
Qed.

(** C2, as stated, fails: with "a" logged in on channel 1 and an empty
    Group Table, routing a's message for the group "nogroup" does not send
    an error frame to channel 1. *)
Lemma unknown_group_no_error_to_sender :
  ¬ one_error_to_sender a_online_with_groups 1 (Some "a")
      (message_frame (Some "a") (Some "hi") (Some "nogroup") None).
Proof.
  intros [error Hsent]. vm_compute in Hsent.
  by apply (f_equal length) in Hsent.
Qed.

(** C2 (amended): for every sender and every group name [G] that is not in
    the Group Table, the turn that routes a [message] frame carrying
    [group = G] delivers nothing and sends no error frame, to the sender or
    to anybody: the server state, [sent] included, is unchanged and the
    connection goes on. *)
Theorem unknown_group_message_dropped s websocket username data G :
  msg_type data = Some (Some "message") →
  msg_group data = Some G → G ≠ "" →
  membersOf s (Some G) = None →
  websocket_endpoint_turn websocket (Frame data) (s, username)
  = ((s, username), Running).
Proof.
  intros Hty Hgroup HG Hunknown.
  unfold websocket_endpoint_turn, loop_body, try_except, bind, receive_json, ret.
  unfold handle_frame, bind, getitem. rewrite Hty. unfold ret. simpl.
  rewrite Hgroup. simpl.
  assert (String.eqb G "" = false) as -> by by apply String.eqb_neq.
  simpl. unfold lift. simpl.
  by destruct (broadcast_to_group_unknown s (Some G) (Forwarded data) (Some websocket) Hunknown)
    as [-> | ->].
Qed.

Lemma unknown_group_message_dropped_witness :
  websocket_endpoint_turn 1
    (Frame (message_frame (Some "a") (Some "hi") (Some "nogroup") None))
    (a_online_with_groups, Some "a")
  = ((a_online_with_groups, Some "a"), Running).
Proof.
  apply (unknown_group_message_dropped _ _ _ _ "nogroup"); done.
Defined.

(** ** Broadcast fan-out *)

(** The loop of [ChatServer.broadcast] has no handler of its own: at the
    first target whose channel is not open the exception leaves the loop.
    The targets before it have been served, the ones after it are not
    reached, and the registry is as it was. *)
Lemma broadcast_loop_aborts s before dead after message sender :
  Forall (is_open s) before → ¬ is_open s dead → Some dead ≠ sender →
  ∃ e,
    broadcast_loop (before ++ dead :: after) message sender s
    = (add_sent (map (λ ws, (ws, message))
                   (filter (λ ws, Some ws ≠ sender) before)) s,
       Raise e).
Proof.
  intros Hbefore Hdead Hsender. revert s Hbefore Hdead.
  induction before as [|ws before IH]; intros s Hbefore Hdead; simpl.
  - unfold bind. rewrite bool_decide_eq_true_2 by done.
    rewrite add_sent_nil. unfold send_json.
    destruct (bool_decide (dead ∈ closed s)) eqn:Hc; [by eexists|].
    destruct (bool_decide (dead ∈ peer_gone s)) eqn:Hg; [by eexists|].
    apply bool_decide_eq_false in Hc, Hg.
    exfalso. by apply Hdead.
  - apply Forall_cons in Hbefore as [Hws Hbefore].
    unfold bind at 1. rewrite filter_cons.
    destruct (decide (Some ws ≠ sender)) as [Hne|Heq].
    + rewrite bool_decide_eq_true_2 by done.
      rewrite send_json_open by done.
      destruct (IH (add_sent [(ws, message)] s)) as [e He]; [done..|].
      exists e. rewrite He. simpl. by rewrite add_sent_app.
    + rewrite bool_decide_eq_false_2 by done. unfold ret at 1.
      by apply IH.
Qed.

(** C3, at the failing input: "a", "b" and "c" are online, a's peer goes
    away, and c sends a chat line to everybody.  [broadcast] raises at a's
    channel: "b" receives nothing and "a" is still in the registry. *)
Theorem broadcast_stops_at_dead_channel :
  let before := run three_online [Disconnect 1] in
  let after := run before [Receive 3 (Frame hi_from_c)] in
  broadcast (Forwarded hi_from_c) (Some 3) (srv before)
    = (srv before, Raise WebSocketDisconnect)
  ∧ sent (srv after) = sent (srv before)
  ∧ lookup (srv after) (Some "a") = Some 1
  ∧ lookup (srv after) (Some "b") = Some 2.
Proof. by vm_compute. Qed.

(** On the same input the module-level [broadcast_message], which has the
    handler around each send, serves "b" and removes "a". *)
Lemma broadcast_message_skips_dead_channel :
  let before := srv (run three_online [Disconnect 1]) in
  ∃ after,
    broadcast_message (Forwarded hi_from_c) (Some "c") before = (after, Ok tt)
    ∧ sent after = sent before ++ [(2, Forwarded hi_from_c)]
    ∧ lookup after (Some "a") = None
    ∧ lookup after (Some "b") = Some 2.
Proof. eexists. by vm_compute. Qed.

(** ** Login *)

Lemma login_user_success s websocket data s' response :
  login_user websocket data s = (s', Ok response) → success response = true →
  let username := msg_username data in
  user_credentials s !! username = Some (msg_password data)
  ∧ active_connections s' = PyDict.set username websocket (active_connections s)
  ∧ closed s' = closed s ++ option_list (lookup s username)
  ∧ sent s' = sent s
  ∧ user_credentials s' = user_credentials s
  ∧ response = LoginOk username (friendsOf s username).
Proof.
  unfold login_user, lookup, friendsOf, bind, gets.
  destruct (user_credentials s !! msg_username data) as [stored|] eqn:Hcred;
    [|by intros [= <- <-]].
  destruct (decide (stored ≠ msg_password data)) as [Hne|Heq].
  { rewrite bool_decide_eq_true_2 by done. by intros [= <- <-]. }
  rewrite bool_decide_eq_false_2 by done.
  apply dec_stable in Heq as ->.
  destruct (PyDict.get (msg_username data) (active_connections s)) as [old|] eqn:Hold.
  - unfold try_pass, close, modify. simpl.
    destruct (user_data s !! msg_username data) as [record|]; simpl.
    + intros [= <- <-] _. by simpl.
    + by intros [= <-].
  - unfold ret, modify. simpl.
    destruct (user_data s !! msg_username data) as [record|]; simpl.
    + intros [= <- <-] _. simpl. by rewrite app_nil_r.
    + by intros [= <-].
Qed.

Lemma registered_once (d : list (name * WebSocket)) username websocket :
  NoDup (PyDict.keys d) →
  ∀ ws, (username, ws) ∈ PyDict.set username websocket d → ws = websocket.
Proof.
  intros Hnd ws Hin.
  apply (elem_get_NoDup _ _ _ (NoDup_keys_set username websocket d Hnd)) in Hin.
  rewrite get_set_eq in Hin. by injection Hin.
Qed.

(** C4: a successful login of a user who already holds a Session closes
    the old channel exactly once (one [close()] call, on the old channel),
    stores the new channel, and [lookup] then returns the new channel and
    no other; so of two successive successful logins of the same user only
    the second channel stays registered, the first one being closed. *)
Theorem login_supersedes s (Hwf : NoDup (PyDict.keys (active_connections s))) data :
  let username := msg_username data in
  (∀ old websocket s' response,
      lookup s username = Some old →
      login_user websocket data s = (s', Ok response) → success response = true →
      closed s' = closed s ++ [old]
      ∧ lookup s' username = Some websocket
      ∧ ∀ ws, (username, ws) ∈ active_connections s' → ws = websocket)
  ∧ (∀ first second s1 s2 response1 response2,
      login_user first data s = (s1, Ok response1) → success response1 = true →
      login_user second data s1 = (s2, Ok response2) → success response2 = true →
      closed s2 = closed s1 ++ [first]
      ∧ lookup s2 username = Some second
      ∧ ∀ ws, (username, ws) ∈ active_connections s2 → ws = second).
Proof.
  intros username.
  assert (∀ s0 old websocket s' response,
      NoDup (PyDict.keys (active_connections s0)) →
      lookup s0 username = Some old →
      login_user websocket data s0 = (s', Ok response) → success response = true →
      closed s' = closed s0 ++ [old]
      ∧ lookup s' username = Some websocket
      ∧ ∀ ws, (username, ws) ∈ active_connections s' → ws = websocket) as Hone.
  { intros s0 old websocket s' response Hnd Hold Hlogin Hok.
    destruct (login_user_success _ _ _ _ _ Hlogin Hok)
      as (_ & Hreg & Hclosed & _).
    fold username in Hreg, Hclosed. rewrite Hold in Hclosed.
    split; [done|]. unfold lookup. rewrite Hreg. split.
    - apply get_set_eq.
    - by apply registered_once. }
  split; [intros; by eapply Hone|].
  intros first second s1 s2 response1 response2 Hlogin1 Hok1 Hlogin2 Hok2.
  destruct (login_user_success _ _ _ _ _ Hlogin1 Hok1) as (_ & Hreg & _).
  fold username in Hreg.
  eapply Hone; [| |done..].
  - rewrite Hreg. by apply NoDup_keys_set.
  - unfold lookup. rewrite Hreg. apply get_set_eq.
Qed.

Lemma login_supersedes_witness :
  let s := srv a_registered in
  let data := login_frame (Some "a") (Some "pw") in
  let s1 := (login_user 1 data s).1 in
  let s2 := (login_user 2 data s1).1 in
  (closed s2 = closed s1 ++ [1]
   ∧ lookup s2 (Some "a") = Some 2
   ∧ ∀ ws, (Some "a", ws) ∈ active_connections s2 → ws = 2)
  ∧ (closed s2 = closed s1 ++ [1]
     ∧ lookup s2 (Some "a") = Some 2
     ∧ ∀ ws, (Some "a", ws) ∈ active_connections s2 → ws = 2).
Proof.
  intros s data s1 s2.
  assert (NoDup (PyDict.keys (active_connections s))) as Hwf by apply NoDup_nil_2.
  assert (NoDup (PyDict.keys (active_connections s1))) as Hwf1
    by (by refine (bool_decide_unpack _ _)).
  split.
  - apply (proj1 (login_supersedes s1 Hwf1 data) 1 2 s2 (LoginOk (Some "a") []));
      by vm_compute.
  - apply (proj2 (login_supersedes s Hwf data) 1 2 s1 s2
             (LoginOk (Some "a") []) (LoginOk (Some "a") []));
      by vm_compute.
Defined.

(** C8: a failed login answers the same whether the user name is unknown
    or the password is wrong.  [login_user] returns the same response and
    leaves the state alone in both cases, and the whole turn of the
    endpoint (what is sent, to whom, and what is left behind) is the same
    for the two frames. *)
Theorem login_failure_hides_username s websocket local unknown p1 known p2 stored :
  user_credentials s !! unknown = None →
  user_credentials s !! known = Some stored → stored ≠ p2 →
  login_user websocket (login_frame unknown p1) s
    = (s, Ok (LoginFailed "Invalid username or password"))
  ∧ login_user websocket (login_frame known p2) s
    = (s, Ok (LoginFailed "Invalid username or password"))
  ∧ websocket_endpoint_turn websocket (Frame (login_frame unknown p1)) (s, local)
    = websocket_endpoint_turn websocket (Frame (login_frame known p2)) (s, local).
Proof.
  intros Hunknown Hknown Hwrong.
  assert (login_user websocket (login_frame unknown p1) s
          = (s, Ok (LoginFailed "Invalid username or password"))) as H1.
  { unfold login_user, bind, gets. simpl. by rewrite Hunknown. }
  assert (login_user websocket (login_frame known p2) s
          = (s, Ok (LoginFailed "Invalid username or password"))) as H2.
  { unfold login_user, bind, gets. simpl. rewrite Hknown.
    by rewrite bool_decide_eq_true_2. }
  split; [done|]. split; [done|].
  unfold websocket_endpoint_turn, loop_body, try_except, bind, receive_json, ret.
  unfold handle_frame, bind, getitem, ret, lift. simpl.
  by rewrite H1, H2.
Qed.

Lemma login_failure_hides_username_witness :
  login_user 2 (login_frame (Some "nobody") (Some "pw")) (srv a_registered)
    = (srv a_registered, Ok (LoginFailed "Invalid username or password"))
  ∧ login_user 2 (login_frame (Some "a") (Some "guess")) (srv a_registered)
    = (srv a_registered, Ok (LoginFailed "Invalid username or password"))
  ∧ websocket_endpoint_turn 2 (Frame (login_frame (Some "nobody") (Some "pw")))
      (srv a_registered, None)
    = websocket_endpoint_turn 2 (Frame (login_frame (Some "a") (Some "guess")))
      (srv a_registered, None).
Proof.
  apply (login_failure_hides_username (srv a_registered) 2 None
           (Some "nobody") (Some "pw") (Some "a") (Some "guess") (Some "pw")).
  - by vm_compute.
  - by vm_compute.
  - discriminate.
Defined.

(** ** Disconnect *)

(** Whatever a turn of the loop raises that derives from [Exception] is
    caught by the inner [try]: the coroutine goes on, and neither outer
    handler runs. *)
Lemma loop_body_catches websocket r st st' e :
  loop_body websocket r st = (st', Raise e) → is_Exception e = false.
Proof.
  unfold loop_body, try_except.
  destruct (bind (receive_json r) _ st) as [st0 [[]|e0]]; [done|].
  destruct (bool_decide (e0 = JSONDecodeError)); [done|].
  destruct (is_Exception e0) eqn:He0; [done|].
  by intros [= <- <-].
Qed.

Lemma websocket_endpoint_never_cleans_up websocket r st st' outcome :
  websocket_endpoint_turn websocket r st = (st', outcome) →
  outcome = Running ∨ ∃ e, outcome = Propagated e ∧ is_Exception e = false.
Proof.
  unfold websocket_endpoint_turn.
  destruct (loop_body websocket r st) as [st0 [[]|e]] eqn:Hbody.
  - intros [= <- <-]. by left.
  - apply loop_body_catches in Hbody.
    destruct e; try done; simpl; intros [= <- <-]; right; by eexists.
Qed.

Lemma disconnect_is_swallowed websocket st :
  websocket_endpoint_turn websocket (Raises WebSocketDisconnect) st = (st, Running).
Proof. done. Qed.

(** What the outer handlers would do if they ran: the entry of the
    coroutine's user name is deleted, whichever channel it holds. *)
Lemma disconnect_cleanup_keyed_on_username s username notify :
  truthy username = true →
  NoDup (PyDict.keys (active_connections s)) →
  lookup (disconnect_cleanup notify (s, username)).1.1 username = None.
Proof.
  intros Htruthy Hwf.
  unfold disconnect_cleanup, bind, get_username, gets, lift, lookup. simpl.
  rewrite Htruthy. unfold PyDict.contains. simpl.
  destruct (PyDict.get username (active_connections s)) as [ws|] eqn:Hget; simpl.
  - destruct notify; simpl.
    + unfold broadcast, bind, gets. simpl.
      set (s1 := set_active_connections _ s).
      assert (∀ l m o s0, active_connections (broadcast_loop l m o s0).1
                          = active_connections s0) as Hframe.
      { induction l as [|c l IH]; intros m o s0; simpl; [done|].
        unfold bind. destruct (bool_decide (Some c ≠ o)).
        - unfold send_json.
          destruct (bool_decide (c ∈ closed s0)); [done|].
          destruct (bool_decide (c ∈ peer_gone s0)); [done|].
          by rewrite IH.
        - unfold ret. by rewrite IH. }
      specialize (Hframe (PyDict.values (active_connections s1))
                    (UserOffline username) None s1).
      destruct (broadcast_loop _ _ _ s1) as [s2 r]. simpl in *.
      rewrite Hframe. by apply get_del_eq.
    + by apply get_del_eq.
  - done.
Qed.

(** C10, at the failing input: "a" logs in over channel 1, then over
    channel 2, and the transport of channel 1 goes down.  The
    [WebSocketDisconnect] raised in the coroutine of channel 1 is caught by
    the inner [try]: the coroutine keeps running with [username = "a"], no
    cleanup takes place, and the registry still maps "a" to channel 2. *)
Theorem stale_disconnect_leaves_registry :
  let after := step a_superseded (Disconnect 1) in
  lookup (srv a_superseded) (Some "a") = Some 2
  ∧ locals a_superseded !! 1 = Some (Some "a")
  ∧ lookup (srv after) (Some "a") = Some 2
  ∧ locals after !! 1 = Some (Some "a")
  ∧ sent (srv after) = sent (srv a_superseded).
Proof. by vm_compute. Qed.

(** ** Registration *)

Lemma register_turn_taken s websocket local username password stored :
  user_credentials s !! username = Some stored → is_open s websocket →
  websocket_endpoint_turn websocket (Frame (register_frame username password)) (s, local)
  = ((add_sent [(websocket, RegisterFailed "Username already exists")] s, local),
     Running).
Proof.
  intros Hcred Hopen.
  unfold websocket_endpoint_turn, loop_body, try_except, bind, receive_json, ret.
  unfold handle_frame, bind, getitem, ret, lift. simpl.
  unfold register_user, bind, gets. simpl. rewrite Hcred.
  rewrite bool_decide_eq_true_2 by by eexists.
  unfold ret. by rewrite send_json_open.
Qed.

Lemma register_turn_fresh s websocket local username password :
  user_credentials s !! username = None → is_open s websocket →
  ∃ s',
    websocket_endpoint_turn websocket (Frame (register_frame username password)) (s, local)
    = ((add_sent [(websocket, RegisterOk)] s', local), Running)
    ∧ user_credentials s' = <[username := password]> (user_credentials s)
    ∧ sent s' = sent s ∧ closed s' = closed s ∧ peer_gone s' = peer_gone s.
Proof.
  intros Hcred Hopen.
  unfold websocket_endpoint_turn, loop_body, try_except, bind, receive_json, ret.
  unfold handle_frame, bind, getitem, ret, lift. simpl.
  unfold register_user, bind, gets. simpl. rewrite Hcred.
  rewrite bool_decide_eq_false_2 by by intros [? ?].
  unfold modify, save_user_data, ret. simpl.
  rewrite send_json_open by done. by eexists.
Qed.

Lemma later_registrations_fail sys username stored later :
  user_credentials (srv sys) !! username = Some stored →
  Forall (λ ws, is_Some (locals sys !! ws) ∧ is_open (srv sys) ws) later.*1 →
  run sys (register_requests username later)
  = {| srv := add_sent (rejections later) (srv sys); locals := locals sys |}.
Proof.
  revert sys. induction later as [|[ws p] later IH]; intros sys Hcred Hall; simpl.
  - rewrite add_sent_nil. by destruct sys.
  - apply Forall_cons in Hall as [[[local Hlocal] Hopen] Hall]. simpl in *.
    unfold run in *. unfold turn. rewrite Hlocal.
    erewrite register_turn_taken by done.
    rewrite insert_id by done.
    rewrite IH; [|done..]. simpl.
    by rewrite add_sent_app.
Qed.

(** C5: of the [register] requests for one user name, the first succeeds
    and every later one fails with the "Username already exists" response.
    Each failure is one frame, sent to the channel that asked and to no
    other, and it changes nothing else: the stored credentials stay those
    of the first request. *)
Theorem only_first_registration_succeeds sys username websocket password later :
  user_credentials (srv sys) !! username = None →
  Forall (λ ws, is_Some (locals sys !! ws) ∧ is_open (srv sys) ws)
    (websocket :: later.*1) →
  let first := step sys (Receive websocket (Frame (register_frame username password))) in
  let final := run first (register_requests username later) in
  sent (srv first) = sent (srv sys) ++ [(websocket, RegisterOk)]
  ∧ user_credentials (srv first) !! username = Some password
  ∧ srv final = add_sent (rejections later) (srv first)
  ∧ sent (srv final) = sent (srv first) ++ rejections later
  ∧ user_credentials (srv final) !! username = Some password.
Proof.
  intros Hfree Hall first final.
  apply Forall_cons in Hall as [[[local Hlocal] Hopen] Hall].
  destruct (register_turn_fresh (srv sys) websocket local username password Hfree Hopen)
    as (s' & Hturn & Hcred & Hsent & Hclosed & Hgone).
  assert (first = {| srv := add_sent [(websocket, RegisterOk)] s';
                     locals := locals sys |}) as Hfirst.
  { unfold first. simpl. unfold turn. rewrite Hlocal, Hturn.
    by rewrite insert_id. }
  assert (user_credentials (srv first) !! username = Some password) as Hstored.
  { rewrite Hfirst. simpl. rewrite Hcred. apply lookup_insert_eq. }
  assert (final = {| srv := add_sent (rejections later) (srv first);
                     locals := locals first |}) as Hfinal.
  { unfold final. eapply later_registrations_fail; [done|].
    rewrite Hfirst. simpl. unfold is_open in *. simpl.
    rewrite Hclosed, Hgone. done. }
  split; [rewrite Hfirst; simpl; by rewrite Hsent|].
  split; [done|].
  rewrite Hfinal. simpl. done.
Qed.

Lemma only_first_registration_succeeds_witness :
  let sys := run (start None) [Accept 1; Accept 2; Accept 3] in
  let first := step sys (Receive 1 (Frame (register_frame (Some "u") (Some "p1")))) in
  let later := [(2, Some "p2"); (3, Some "p3"); (1, Some "p1")] in
  let final := run first (register_requests (Some "u") later) in
  sent (srv first) = sent (srv sys) ++ [(1, RegisterOk)]
  ∧ user_credentials (srv first) !! Some "u" = Some (Some "p1")
  ∧ srv final = add_sent (rejections later) (srv first)
  ∧ sent (srv final) = sent (srv first) ++ rejections later
  ∧ user_credentials (srv final) !! Some "u" = Some (Some "p1").
Proof.
  intros sys first later final.
  apply (only_first_registration_succeeds sys (Some "u") 1 (Some "p1") later).
  - by vm_compute.
  - by refine (bool_decide_unpack _ _).
Defined.

(** ** Friends *)

Lemma append_friend_known s who new_friend record :
  user_data s !! who = Some record →
  append_friend who new_friend s
  = (set_user_data
       <[who := {| password := password record;
                   friends := friends record ++ [new_friend] |}]> s,
     Ok tt).
Proof. intros Hwho. unfold append_friend, bind, gets. by rewrite Hwho. Qed.




(** * The client *)
Section client_facts.
Import Client.
Local Open Scope Z_scope.

(** ** Backoff *)











(** ** Sending while disconnected *)


(** The coroutine takes the same early exit when it finds no connection. *)
Lemma send_ws_message_no_websocket c message outcome :
  websocket c = None →
  send_ws_message message outcome c = put (STATUS "Not connected to server" "red") c.
Proof. intros Hws. unfold send_ws_message. by rewrite Hws. Qed.



End client_facts.

(** * Invariants of the running server *)

(** Closed goals about example states are settled by evaluation. *)
Ltac computed := vm_compute; first [reflexivity | exact I | done].
Ltac decide_computed := refine (bool_decide_unpack _ _); vm_compute; exact I.
Ltac refute_computed :=
  let H := fresh in
  intros H; apply (bool_decide_pack _) in H; vm_compute in H; exact H.

Ltac keeps_same := repeat split; try done; exists []; by rewrite app_nil_r.

Lemma keeps_refl s : keeps s s.
Proof. keeps_same. Qed.

Lemma keeps_trans s1 s2 s3 : keeps s1 s2 → keeps s2 s3 → keeps s1 s3.
Proof.
  intros (Hr1 & Hc1 & Hd1 & [l1 Hs1] & [k1 Hk1]) (Hr2 & Hc2 & Hd2 & [l2 Hs2] & [k2 Hk2]).
  repeat split; [by auto..| |].
  - exists (l1 ++ l2). by rewrite Hs2, Hs1, app_assoc.
  - exists (k1 ++ k2). by rewrite Hk2, Hk1, app_assoc.
Qed.

Lemma sound_refl s : sound s s.
Proof. split; [done | apply keeps_refl]. Qed.

Lemma sound_trans s1 s2 s3 : sound s1 s2 → sound s2 s3 → sound s1 s3.
Proof.
  intros [Hc1 Hk1] [Hc2 Hk2]. split; [by auto | by eapply keeps_trans].
Qed.

Lemma sound_add_sent l s : sound s (add_sent l s).
Proof.
  split; [done|]. repeat split; try done; [by exists l | exists []; by rewrite app_nil_r].
Qed.

Section preserves.
Context {St : Type} (proj : St → server).

Lemma preserves_ret {A} (a : A) : preserves proj (ret a).
Proof. intros st. apply sound_refl. Qed.

Lemma preserves_raise {A} e : preserves proj (@raise St A e).
Proof. intros st. apply sound_refl. Qed.

Lemma preserves_gets {A} (f : St → A) : preserves proj (gets f).
Proof. intros st. apply sound_refl. Qed.

Lemma preserves_getitem {A} (v : option A) : preserves proj (@getitem St A v).
Proof. destruct v; [apply preserves_ret | apply preserves_raise]. Qed.

Lemma preserves_of_res {A} (r : res A) : preserves proj (@of_res St A r).
Proof. destruct r; [apply preserves_ret | apply preserves_raise]. Qed.

Lemma preserves_bind {A B} (c : M St A) (k : A → M St B) :
  preserves proj c → (∀ a, preserves proj (k a)) → preserves proj (bind c k).
Proof.
  intros Hc Hk st. unfold bind. specialize (Hc st).
  destruct (c st) as [st' [a|e]]; simpl in *; [|done].
  eapply sound_trans; [done | apply Hk].
Qed.

Lemma preserves_try_except {A} (c : M St A) (handler : exn → M St A) :
  preserves proj c → (∀ e, preserves proj (handler e)) →
  preserves proj (try_except c handler).
Proof.
  intros Hc Hh st. unfold try_except. specialize (Hc st).
  destruct (c st) as [st' [a|e]]; simpl in *; [done|].
  eapply sound_trans; [done | apply Hh].
Qed.

Lemma preserves_try_pass {A} (c : M St A) :
  preserves proj c → preserves proj (try_pass c).
Proof. intros Hc st. apply Hc. Qed.
End preserves.

Lemma preserves_lift {A} (c : M server A) :
  preserves id c → preserves fst (lift c).
Proof.
  intros Hc st. unfold lift. specialize (Hc st.1).
  by destruct (c st.1) as [s' r].
Qed.

Lemma preserves_set_username username : preserves fst (set_username username).
Proof. intros st. apply sound_refl. Qed.

(** ** Each handler *)

Lemma preserves_send_json connection message : preserves id (send_json connection message).
Proof.
  intros s. unfold send_json. simpl.
  repeat case_match; simpl; (apply sound_refl || apply sound_add_sent).
Qed.

Lemma preserves_close connection : preserves id (close connection).
Proof.
  intros s. unfold close. simpl. split; [done|].
  repeat split; try done; [exists []; by rewrite app_nil_r | by eexists].
Qed.

Lemma preserves_save_user_data : preserves id save_user_data.
Proof.
  intros s. unfold save_user_data. simpl. split.
  - intros (Hg & Hf & Hc & Hn & Hr). by repeat split.
  - keeps_same.
Qed.

Lemma preserves_broadcast_loop connections message sender :
  preserves id (broadcast_loop connections message sender).
Proof.
  induction connections as [|c rest IH]; simpl; [apply preserves_ret|].
  apply preserves_bind; [|done].
  case_match; [apply preserves_send_json | apply preserves_ret].
Qed.

Lemma preserves_broadcast message sender : preserves id (broadcast message sender).
Proof.
  apply preserves_bind; [apply preserves_gets|].
  intros connections. apply preserves_broadcast_loop.
Qed.

Lemma preserves_send_direct_message_loop items recipient message :
  preserves id (send_direct_message_loop items recipient message).
Proof.
  induction items as [|[u ws] rest IH]; simpl; [apply preserves_ret|].
  case_match; [apply preserves_send_json | done].
Qed.

Lemma preserves_send_direct_message recipient message :
  preserves id (send_direct_message recipient message).
Proof.
  apply preserves_bind; [apply preserves_gets|].
  intros connections. apply preserves_send_direct_message_loop.
Qed.

Lemma preserves_broadcast_to_group_loop group_members message sender :
  preserves id (broadcast_to_group_loop group_members message sender).
Proof.
  induction group_members as [|u rest IH]; simpl; [apply preserves_ret|].
  apply preserves_bind; [apply preserves_gets|]. intros found.
  apply preserves_bind; [|done].
  case_match; [apply preserves_send_direct_message | apply preserves_ret].
Qed.

Lemma preserves_broadcast_to_group group_name message sender :
  preserves id (broadcast_to_group group_name message sender).
Proof.
  apply preserves_bind; [apply preserves_gets|]. intros [table|].
  - apply preserves_broadcast_to_group_loop.
  - apply preserves_raise.
Qed.

Lemma preserves_handle_call_request message : preserves id (handle_call_request message).
Proof.
  apply preserves_bind; [apply preserves_getitem|].
  intros recipient. apply preserves_send_direct_message.
Qed.

Lemma preserves_handle_screen_share message : preserves id (handle_screen_share message).
Proof.
  apply preserves_bind; [apply preserves_getitem|].
  intros recipient. apply preserves_send_direct_message.
Qed.

Lemma preserves_register_user websocket data :
  preserves id (register_user websocket data).
Proof.
  intros s. unfold register_user, bind, gets. simpl.
  destruct (user_credentials s !! msg_username data) as [stored|] eqn:Hcred.
  { rewrite bool_decide_eq_true_2 by by eexists. apply sound_refl. }
  rewrite bool_decide_eq_false_2 by by intros [? ?].
  unfold modify, save_user_data, ret. simpl. split.
  - intros (Hg & Hf & Hc & Hn & Hr). repeat split; simpl; try done.
    + intros u p. destruct (decide (msg_username data = u)) as [<-|Hne].
      * rewrite !lookup_insert_eq. intros [= <-]. by eexists.
      * rewrite !lookup_insert_ne by done. apply Hc.
    + intros u Hu. destruct (decide (msg_username data = u)) as [<-|Hne].
      * rewrite lookup_insert_eq. by eexists.
      * rewrite lookup_insert_ne by done. by apply Hr.
  - repeat split; simpl; try done.
    + intros u p Hu. rewrite lookup_insert_ne; [done|]. intros <-. congruence.
    + intros u Hu. apply lookup_insert_is_Some'. by right.
    + exists []. by rewrite app_nil_r.
    + exists []. by rewrite app_nil_r.
Qed.

Lemma sound_register_connection s u ws :
  is_Some (user_credentials s !! u) →
  sound s (set_active_connections (PyDict.set u ws) s).
Proof.
  intros Hu. split.
  - intros (Hg & Hf & Hc & Hn & Hr). repeat split; simpl; try done.
    + by apply NoDup_keys_set.
    + intros u'. unfold lookup. simpl.
      destruct (decide (u = u')) as [<-|Hne]; [done|].
      rewrite get_set_ne by done. apply Hr.
  - repeat split; simpl; try done.
    + intros u'. unfold lookup. simpl.
      destruct (decide (u = u')) as [<-|Hne].
      * rewrite get_set_eq. by eexists.
      * by rewrite get_set_ne.
    + exists []. by rewrite app_nil_r.
    + exists []. by rewrite app_nil_r.
Qed.

Lemma preserves_login_user websocket data :
  preserves id (login_user websocket data).
Proof.
  intros s. unfold login_user, bind at 1, gets at 1.
  destruct (user_credentials s !! msg_username data) as [stored|] eqn:Hcred;
    [|apply sound_refl].
  case_match; [apply sound_refl|].
  unfold bind at 1, gets at 1. unfold bind at 1.
  assert (∀ s0, user_credentials s0 = user_credentials s →
            sound s0 (bind (modify (set_active_connections
                                      (PyDict.set (msg_username data) websocket)))
                        (λ _, bind (gets user_data)
                           (λ records, bind (getitem (records !! msg_username data))
                              (λ record, ret (LoginOk (msg_username data)
                                                (friends record))))) s0).1) as Hrest.
  { intros s0 Hsame. unfold bind at 1, modify at 1.
    eapply sound_trans.
    - apply sound_register_connection. rewrite Hsame, Hcred. by eexists.
    - apply (preserves_bind id); [apply preserves_gets|]. intros records.
      apply (preserves_bind id); [apply preserves_getitem|]. intros record.
      apply preserves_ret. }
  destruct (PyDict.get (msg_username data) (active_connections s)) as [old|].
  - unfold try_pass. simpl.
    eapply sound_trans; [apply (preserves_close old s)|].
    by apply Hrest.
  - unfold ret at 1. by apply Hrest.
Qed.

Lemma preserves_handle_create_group group_name members username :
  preserves id (handle_create_group group_name members username).
Proof.
  intros s. unfold handle_create_group, bind at 1, gets at 1.
  destruct (groups s) as [table|] eqn:Htable; [|apply sound_refl].
  unfold bind at 1, modify at 1. split.
  - intros (Hg & _). simpl in Hg. congruence.
  - eapply keeps_trans;
      [|apply (preserves_broadcast_to_group group_name
                 (GroupCreated group_name members username) None)].
    keeps_same.
Qed.

Lemma preserves_handle_add_friend friend_username username :
  preserves id (handle_add_friend friend_username username).
Proof.
  intros s. unfold handle_add_friend, bind at 1, gets at 1.
  destruct (user_data s !! friend_username) as [rb|] eqn:Hb.
  2: { rewrite bool_decide_eq_false_2 by by intros [? ?]. apply sound_refl. }
  rewrite bool_decide_eq_true_2 by by eexists.
  unfold bind at 1.
  destruct (user_data s !! username) as [ra|] eqn:Ha.
  2: { unfold append_friend, bind, gets. rewrite Ha. apply sound_refl. }
  rewrite (append_friend_known _ _ _ ra) by done.
  set (ra' := {| password := password ra; friends := friends ra ++ [friend_username] |}).
  set (s1 := set_user_data _ s).
  assert (∃ rb1, user_data s1 !! friend_username = Some rb1
                 ∧ (username = friend_username → rb1 = ra')
                 ∧ (username ≠ friend_username → rb1 = rb))
    as (rb1 & Hb1 & Hsame & Hdiff).
  { unfold s1. simpl. destruct (decide (username = friend_username)) as [->|Hne].
    - exists ra'. rewrite lookup_insert_eq. by split.
    - exists rb. rewrite lookup_insert_ne by done. by split. }
  unfold bind at 1. rewrite (append_friend_known _ _ _ rb1) by done.
  set (rb' := {| password := password rb1; friends := friends rb1 ++ [username] |}).
  set (s2 := set_user_data _ s1).
  unfold bind at 1, save_user_data at 1.
  set (s3 := set_users_file _ s2).
  eapply sound_trans.
  2: { apply (preserves_bind id); [apply preserves_send_direct_message|].
       intros _. apply preserves_send_direct_message. }
  split.
  - intros (Hg & Hf & Hc & Hn & Hr). unfold id in *. repeat split; simpl; try done.
    intros u p Hu. destruct (Hc u p Hu) as (r & Hr0 & Hp).
    destruct (decide (friend_username = u)) as [<-|Hnb].
    + rewrite lookup_insert_eq. eexists. split; [done|]. simpl.
      destruct (decide (username = friend_username)) as [Heq|Hne].
      * rewrite (Hsame Heq). simpl. congruence.
      * rewrite (Hdiff Hne). congruence.
    + rewrite lookup_insert_ne by done.
      destruct (decide (username = u)) as [<-|Hna].
      * rewrite lookup_insert_eq. eexists. split; [done|]. simpl. congruence.
      * rewrite lookup_insert_ne by done. by eexists.
  - repeat split; simpl; try done.
    + intros u Hu. apply lookup_insert_is_Some'. right.
      apply lookup_insert_is_Some'. by right.
    + exists []. by rewrite app_nil_r.
    + exists []. by rewrite app_nil_r.
Qed.

(** ** The endpoint *)

Ltac preserves_steps :=
  repeat first
    [ progress intros
    | apply preserves_lift
    | apply preserves_ret
    | apply preserves_raise
    | apply preserves_getitem
    | apply preserves_of_res
    | apply preserves_gets
    | apply preserves_set_username
    | apply preserves_send_json
    | apply preserves_register_user
    | apply preserves_login_user
    | apply preserves_broadcast
    | apply preserves_send_direct_message
    | apply preserves_broadcast_to_group
    | apply preserves_handle_call_request
    | apply preserves_handle_screen_share
    | apply preserves_handle_create_group
    | apply preserves_handle_add_friend
    | apply preserves_bind
    | case_match ].

Lemma preserves_handle_frame websocket data :
  preserves fst (handle_frame websocket data).
Proof. unfold handle_frame, get_username. preserves_steps. Qed.

Lemma preserves_loop_body websocket r : preserves fst (loop_body websocket r).
Proof.
  unfold loop_body. apply preserves_try_except.
  - apply preserves_bind; [|intros; apply preserves_handle_frame].
    destruct r; [apply preserves_ret | apply preserves_raise].
  - preserves_steps.
Qed.

Lemma websocket_endpoint_turn_state websocket r st :
  (websocket_endpoint_turn websocket r st).1 = (loop_body websocket r st).1.
Proof.
  unfold websocket_endpoint_turn.
  destruct (loop_body websocket r st) as [st' [[]|e]] eqn:Hbody; [done|].
  apply loop_body_catches in Hbody. by destruct e.
Qed.

Lemma sound_turn websocket r st :
  sound st.1 (websocket_endpoint_turn websocket r st).1.1.
Proof. rewrite websocket_endpoint_turn_state. apply preserves_loop_body. Qed.

Lemma sound_system_turn websocket r sys : sound (srv sys) (srv (turn websocket r sys)).
Proof.
  unfold turn. destruct (locals sys !! websocket) as [username|]; [|apply sound_refl].
  pose proof (sound_turn websocket r (srv sys, username)) as Hsound.
  destruct (websocket_endpoint_turn websocket r (srv sys, username))
    as [[s' username'] outcome].
  by destruct outcome.
Qed.

Lemma sound_step sys ev : sound (srv sys) (srv (step sys ev)).
Proof.
  destruct ev as [ws|ws r|ws]; simpl.
  - apply sound_refl.
  - apply sound_system_turn.
  - eapply sound_trans; [|apply sound_system_turn]. simpl.
    split; [done | keeps_same].
Qed.

Lemma sound_run sys evs : sound (srv sys) (srv (run sys evs)).
Proof.
  revert sys. induction evs as [|ev evs IH]; intros sys; simpl; [apply sound_refl|].
  eapply sound_trans; [apply sound_step | apply IH].
Qed.

Lemma consistent_init file : consistent (init file).
Proof.
  destruct file as [data|]; repeat split; simpl; try done.
  - apply NoDup_nil_2.
  - by intros u [? ?].
  - apply NoDup_nil_2.
  - by intros u [? ?].
Qed.

Lemma consistent_run file evs : consistent (srv (run (start file) evs)).
Proof. apply (sound_run (start file) evs). apply consistent_init. Qed.

(** X1: every state that a started server reaches is consistent:
    [users.json] holds exactly [user_data], every stored credential has a
    user record with the same password, the registry has one entry per
    user name and only for names with credentials, and there is no
    [groups] attribute. *)
Theorem reachable_consistent file evs : consistent (srv (run (start file) evs)).
Proof. apply consistent_run. Qed.

(** X2: nothing is taken back.  Whatever events follow, a user in the
    registry stays in the registry, a stored password stays as it is, a
    user record stays, and the frames sent and the [close()] calls made
    are only added to. *)
Theorem nothing_is_taken_back sys evs :
  let s := srv sys in
  let s' := srv (run sys evs) in
  (∀ u, is_Some (lookup s u) → is_Some (lookup s' u))
  ∧ (∀ u p, user_credentials s !! u = Some p → user_credentials s' !! u = Some p)
  ∧ (∀ u, is_Some (user_data s !! u) → is_Some (user_data s' !! u))
  ∧ (∃ l, sent s' = sent s ++ l)
  ∧ (∃ l, closed s' = closed s ++ l).
Proof. apply (sound_run sys evs). Qed.

Lemma nothing_is_taken_back_witness :
  let s := srv a_online in
  let s' := srv (run a_online [Disconnect 1; Accept 2;
                               Receive 2 (Frame (register_frame (Some "a") (Some "new")))]) in
  is_Some (lookup s' (Some "a"))
  ∧ user_credentials s' !! Some "a" = Some (Some "pw").
Proof.
  intros s s'.
  destruct (nothing_is_taken_back a_online
              [Disconnect 1; Accept 2;
               Receive 2 (Frame (register_frame (Some "a") (Some "new")))])
    as (Hreg & Hcred & _).
  split.
  - apply Hreg. eexists. by vm_compute.
  - apply Hcred. by vm_compute.
Defined.

(** ** The Group Table of a running server *)

Lemma create_group_turn_without_table s websocket local data :
  groups s = None → msg_type data = Some (Some "create_group") →
  websocket_endpoint_turn websocket (Frame data) (s, local) = ((s, local), Running).
Proof.
  intros Hg Hty.
  unfold websocket_endpoint_turn, loop_body, try_except, bind, receive_json, ret.
  unfold handle_frame, bind, getitem. rewrite Hty. unfold ret. simpl.
  destruct (msg_group_name data) as [group_name|]; [|done]. simpl.
  destruct (msg_members data) as [members|]; [|done]. simpl.
  unfold lift. simpl.
  by rewrite handle_create_group_without_table.
Qed.

Lemma group_message_turn_without_table s websocket local data :
  groups s = None → msg_type data = Some (Some "message") →
  truthy (msg_group data) = true →
  websocket_endpoint_turn websocket (Frame data) (s, local) = ((s, local), Running).
Proof.
  intros Hg Hty Hgroup.
  unfold websocket_endpoint_turn, loop_body, try_except, bind, receive_json, ret.
  unfold handle_frame, bind, getitem. rewrite Hty. unfold ret. simpl.
  rewrite Hgroup. unfold lift, broadcast_to_group, bind, gets. simpl.
  by rewrite Hg.
Qed.

Lemma same_turn_same_system sys websocket r :
  (∀ local, locals sys !! websocket = Some local →
     websocket_endpoint_turn websocket r (srv sys, local) = ((srv sys, local), Running)) →
  turn websocket r sys = sys.
Proof.
  intros Hturn. unfold turn.
  destruct (locals sys !! websocket) as [local|] eqn:Hlocal; [|done].
  rewrite (Hturn local eq_refl). rewrite insert_id by done. by destruct sys.
Qed.

(** X3: on a server as [ChatServer()] builds it, whatever has happened
    since, a [create_group] frame and a [message] frame that carries a
    group change nothing at all: no group is recorded, nothing is sent,
    the connection goes on. *)
Theorem group_requests_do_nothing file evs websocket data :
  msg_type data = Some (Some "create_group")
  ∨ (msg_type data = Some (Some "message") ∧ truthy (msg_group data) = true) →
  let sys := run (start file) evs in
  step sys (Receive websocket (Frame data)) = sys.
Proof.
  intros Hkind sys. simpl. apply same_turn_same_system. intros local _.
  destruct (consistent_run file evs) as (Hg & _). fold sys in Hg.
  destruct Hkind as [Hty | [Hty Hgroup]].
  - by apply create_group_turn_without_table.
  - by apply group_message_turn_without_table.
Qed.

Lemma group_requests_do_nothing_witness :
  let sys := run (start None) [Accept 1] in
  step sys (Receive 1 (Frame (create_group_frame (Some "g") [Some "a"]))) = sys
  ∧ step sys (Receive 1 (Frame (message_frame (Some "a") (Some "hi") (Some "g") None)))
    = sys.
Proof.
  split.
  - apply (group_requests_do_nothing None [Accept 1]). by left.
  - apply (group_requests_do_nothing None [Accept 1]). by right.
Defined.

(** ** Credentials *)

(** X4: in every state a started server reaches, a login with the stored
    password is answered with [login_response] success and the user's
    friend list, and registers the channel: the user record that
    [login_user] reads is always there. *)
Theorem stored_credentials_log_in file evs websocket u p :
  let s := srv (run (start file) evs) in
  user_credentials s !! u = Some p →
  ∃ s', login_user websocket (login_frame u p) s
        = (s', Ok (LoginOk u (friendsOf s u)))
      ∧ lookup s' u = Some websocket.
Proof.
  intros s Hcred.
  destruct (consistent_run file evs) as (_ & _ & Hc & _). fold s in Hc.
  destruct (Hc u p Hcred) as (record & Hrecord & _).
  unfold login_user, friendsOf, lookup, bind at 1, gets at 1. simpl. rewrite Hcred.
  rewrite bool_decide_eq_false_2 by (by intros ?).
  unfold bind at 1, gets at 1. unfold bind at 1.
  destruct (PyDict.get u (active_connections s)) as [old|].
  - unfold try_pass, close, bind, modify, gets. simpl. rewrite Hrecord. simpl.
    eexists. split; [done|]. simpl. apply get_set_eq.
  - unfold ret at 1, bind, modify, gets. simpl. rewrite Hrecord. simpl.
    eexists. split; [done|]. simpl. apply get_set_eq.
Qed.

Lemma stored_credentials_log_in_witness :
  ∃ s', login_user 2 (login_frame (Some "a") (Some "pw")) (srv a_online)
        = (s', Ok (LoginOk (Some "a") (friendsOf (srv a_online) (Some "a"))))
      ∧ lookup s' (Some "a") = Some 2.
Proof.
  apply (stored_credentials_log_in None
           [Accept 1;
            Receive 1 (Frame (register_frame (Some "a") (Some "pw")));
            Receive 1 (Frame (login_frame (Some "a") (Some "pw")))] 2).
  by vm_compute.
Defined.

(** X5: a restart forgets every credential.  On a server that has just
    been started, with whatever [users.json], every login fails; and a
    user of the file who registers again gets a fresh record, in memory
    and in the file, with an empty friend list. *)
Theorem restart_forgets_credentials :
  (∀ file websocket u p,
     login_user websocket (login_frame u p) (init file)
     = (init file, Ok (LoginFailed "Invalid username or password")))
  ∧ (∀ data websocket u p record,
       data !! u = Some record →
       ∃ s', register_user websocket (register_frame u p) (init (Some data))
             = (s', Ok RegisterOk)
           ∧ friendsOf s' u = []
           ∧ users_file s' !! u = Some {| password := p; friends := [] |}).
Proof.
  split.
  - intros file websocket u p. unfold login_user, bind, gets. simpl.
    by destruct file.
  - intros data websocket u p record Hrecord.
    unfold register_user, friendsOf, bind, gets, modify, save_user_data, ret. simpl.
    rewrite lookup_empty.
    rewrite bool_decide_eq_false_2 by (by intros [? ?]). simpl.
    eexists. split; [done|]. simpl. by rewrite lookup_insert_eq.
Qed.

Lemma restart_forgets_credentials_witness :
  login_user 1 (login_frame (Some "a") (Some "pw")) (init (Some saved_users))
  = (init (Some saved_users), Ok (LoginFailed "Invalid username or password"))
  ∧ ∃ s', register_user 1 (register_frame (Some "a") (Some "pw")) (init (Some saved_users))
          = (s', Ok RegisterOk)
        ∧ friendsOf s' (Some "a") = []
        ∧ users_file s' !! Some "a" = Some {| password := Some "pw"; friends := [] |}.
Proof.
  destruct restart_forgets_credentials as [Hlogin Hregister].
  split; [apply Hlogin|].
  apply (Hregister saved_users 1 (Some "a") (Some "pw")
           {| password := Some "pw"; friends := [Some "b"] |}).
  by vm_compute.
Defined.

(** ** Routing *)

Lemma send_direct_message_lookup s recipient message :
  send_direct_message recipient message s
  = match lookup s recipient with
    | Some ws => send_json ws message s
    | None => (s, Ok tt)
    end.
Proof.
  unfold send_direct_message, lookup, bind, gets.
  induction (active_connections s) as [|[u ws] items IH]; simpl; [done|].
  destruct (decide (u = recipient)) as [->|Hne].
  - by rewrite bool_decide_eq_true_2.
  - by rewrite bool_decide_eq_false_2.
Qed.

Lemma send_json_not_open s connection message :
  ¬ is_open s connection → ∃ e, send_json connection message s = (s, Raise e)
                               ∧ is_Exception e = true.
Proof.
  intros Hdead. unfold send_json.
  destruct (bool_decide (connection ∈ closed s)) eqn:Hc; [by eexists|].
  destruct (bool_decide (connection ∈ peer_gone s)) eqn:Hg; [by eexists|].
  apply bool_decide_eq_false in Hc, Hg. exfalso. by apply Hdead.
Qed.

(** What a turn does with a frame that ends in one direct message. *)
Lemma direct_turn s websocket local data recipient :
  (∀ st, handle_frame websocket data st
         = lift (send_direct_message recipient (Forwarded data)) st) →
  (lookup s recipient = None →
     websocket_endpoint_turn websocket (Frame data) (s, local) = ((s, local), Running))
  ∧ (∀ ws, lookup s recipient = Some ws → is_open s ws →
       websocket_endpoint_turn websocket (Frame data) (s, local)
       = ((add_sent [(ws, Forwarded data)] s, local), Running))
  ∧ (∀ ws, lookup s recipient = Some ws → ¬ is_open s ws →
       websocket_endpoint_turn websocket (Frame data) (s, local) = ((s, local), Running)).
Proof.
  intros Hframe.
  assert (∀ r, send_direct_message recipient (Forwarded data) s = (r.1, r.2) →
            websocket_endpoint_turn websocket (Frame data) (s, local)
            = ((r.1, local),
               match r.2 with
               | Ok _ => Running
               | Raise e => if is_Exception e then Running else Propagated e
               end)) as Hturn.
  { intros [s' r] Hsend. simpl in *.
    unfold websocket_endpoint_turn, loop_body, try_except, bind, receive_json, ret.
    rewrite Hframe. unfold lift. simpl. rewrite Hsend.
    destruct r as [[]|e]; [done|]. by destruct e. }
  rewrite send_direct_message_lookup in Hturn.
  split; [|split].
  - intros Hnone. rewrite Hnone in Hturn. by apply (Hturn (s, Ok tt)).
  - intros ws Hws Hopen. rewrite Hws in Hturn.
    apply (Hturn (add_sent [(ws, Forwarded data)] s, Ok tt)).
    by apply send_json_open.
  - intros ws Hws Hdead. rewrite Hws in Hturn.
    destruct (send_json_not_open s ws (Forwarded data) Hdead) as (e & He & Hexc).
    rewrite (Hturn (s, Raise e) He). simpl. by rewrite Hexc.
Qed.

(** X6: a [message] frame with a [to] field and no group goes to the
    channel registered for that user and to nobody else, not even back to
    the sender; when the user has no Session, or the channel is dead, the
    frame is dropped and nothing tells the sender. *)
Theorem direct_message_routing s websocket local data recipient :
  msg_type data = Some (Some "message") → truthy (msg_group data) = false →
  msg_to data = Some (Some recipient) → recipient ≠ "" →
  (lookup s (Some recipient) = None →
     websocket_endpoint_turn websocket (Frame data) (s, local) = ((s, local), Running))
  ∧ (∀ ws, lookup s (Some recipient) = Some ws → is_open s ws →
       websocket_endpoint_turn websocket (Frame data) (s, local)
       = ((add_sent [(ws, Forwarded data)] s, local), Running))
  ∧ (∀ ws, lookup s (Some recipient) = Some ws → ¬ is_open s ws →
       websocket_endpoint_turn websocket (Frame data) (s, local) = ((s, local), Running)).
Proof.
  intros Hty Hgroup Hto Hrecipient. apply direct_turn. intros st.
  unfold handle_frame, bind, getitem. rewrite Hty. unfold ret. simpl.
  rewrite Hgroup, Hto. simpl.
  by assert (String.eqb recipient "" = false) as -> by by apply String.eqb_neq.
Qed.

Lemma direct_message_routing_witness :
  let to_b := message_frame (Some "a") (Some "hi") None (Some (Some "b")) in
  let to_z := message_frame (Some "a") (Some "hi") None (Some (Some "z")) in
  websocket_endpoint_turn 1 (Frame to_z) (srv three_online, Some "a")
    = ((srv three_online, Some "a"), Running)
  ∧ websocket_endpoint_turn 1 (Frame to_b) (srv three_online, Some "a")
    = ((add_sent [(2, Forwarded to_b)] (srv three_online), Some "a"), Running)
  ∧ websocket_endpoint_turn 2 (Frame (message_frame (Some "b") (Some "hi") None
                                        (Some (Some "a"))))
      (srv (run three_online [Disconnect 1]), Some "b")
    = ((srv (run three_online [Disconnect 1]), Some "b"), Running).
Proof.
  intros to_b to_z. split; [|split].
  - apply (proj1 (direct_message_routing (srv three_online) 1 (Some "a") to_z "z"
                    eq_refl eq_refl eq_refl ltac:(discriminate))).
    computed.
  - apply (proj1 (proj2 (direct_message_routing (srv three_online) 1 (Some "a") to_b "b"
                           eq_refl eq_refl eq_refl ltac:(discriminate))) 2).
    + computed.
    + decide_computed.
  - apply (proj2 (proj2 (direct_message_routing (srv (run three_online [Disconnect 1]))
                           2 (Some "b")
                           (message_frame (Some "b") (Some "hi") None (Some (Some "a")))
                           "a" eq_refl eq_refl eq_refl ltac:(discriminate))) 1).
    + computed.
    + refute_computed.
Defined.

(** X7: a signaling frame ([call_request] or [screen_share]) is forwarded
    as it is to the channel registered for [to] and to nobody else; it is
    dropped when [to] is missing, when that user has no Session and when
    the channel is dead. *)
Theorem signaling_routing s websocket local data :
  msg_type data = Some (Some "call_request")
  ∨ msg_type data = Some (Some "screen_share") →
  (msg_to data = None →
     websocket_endpoint_turn websocket (Frame data) (s, local) = ((s, local), Running))
  ∧ (∀ recipient, msg_to data = Some recipient →
       (lookup s recipient = None →
          websocket_endpoint_turn websocket (Frame data) (s, local)
          = ((s, local), Running))
       ∧ (∀ ws, lookup s recipient = Some ws → is_open s ws →
            websocket_endpoint_turn websocket (Frame data) (s, local)
            = ((add_sent [(ws, Forwarded data)] s, local), Running))
       ∧ (∀ ws, lookup s recipient = Some ws → ¬ is_open s ws →
            websocket_endpoint_turn websocket (Frame data) (s, local)
            = ((s, local), Running))).
Proof.
  intros Hty. split.
  - intros Hto.
    unfold websocket_endpoint_turn, loop_body, try_except, bind, receive_json, ret.
    unfold handle_frame, bind, getitem.
    destruct Hty as [-> | ->]; unfold ret; simpl;
      unfold lift, handle_call_request, handle_screen_share, bind, getitem; simpl;
      by rewrite Hto.
  - intros recipient Hto. apply direct_turn. intros st.
    unfold handle_frame, bind, getitem.
    destruct Hty as [-> | ->]; unfold ret; simpl;
      unfold lift, handle_call_request, handle_screen_share, bind, getitem; simpl;
      by rewrite Hto.
Qed.

Lemma signaling_routing_witness :
  let call := signaling_frame "call_request" (Some (Some "b")) (Some "offer") in
  let lost := signaling_frame "screen_share" None (Some "offer") in
  websocket_endpoint_turn 1 (Frame lost) (srv three_online, Some "a")
    = ((srv three_online, Some "a"), Running)
  ∧ websocket_endpoint_turn 1 (Frame call) (srv three_online, Some "a")
    = ((add_sent [(2, Forwarded call)] (srv three_online), Some "a"), Running).
Proof.
  intros call lost. split.
  - apply (proj1 (signaling_routing (srv three_online) 1 (Some "a") lost
                    (or_intror eq_refl))).
    reflexivity.
  - apply (proj1 (proj2 (proj2 (signaling_routing (srv three_online) 1 (Some "a") call
                                  (or_introl eq_refl))
                           (Some "b") eq_refl)) 2).
    + computed.
    + decide_computed.
Defined.

(** X8: a frame without a [type], or with a [type] the endpoint does not
    act on (the client's own [join] among them), changes nothing and the
    connection goes on. *)
Theorem unrecognised_frame_dropped s websocket local data :
  (∀ ty, msg_type data = Some ty → ty ∉ known_types) →
  websocket_endpoint_turn websocket (Frame data) (s, local) = ((s, local), Running).
Proof.
  intros Hty.
  unfold websocket_endpoint_turn, loop_body, try_except, bind, receive_json, ret.
  unfold handle_frame, bind, getitem.
  destruct (msg_type data) as [ty|]; [|done]. specialize (Hty ty eq_refl).
  unfold ret, type_is. simpl.
  unfold known_types in Hty.
  repeat (rewrite not_elem_of_cons in Hty; destruct Hty as [? Hty]).
  by rewrite !bool_decide_eq_false_2.
Qed.

Lemma unrecognised_frame_dropped_witness :
  websocket_endpoint_turn 1 (Frame (signaling_frame "join" None None))
    (srv three_online, Some "a")
  = ((srv three_online, Some "a"), Running).
Proof.
  apply unrecognised_frame_dropped. intros ty [= <-].
  decide_computed.
Defined.

Lemma broadcast_loop_open s connections message sender :
  Forall (is_open s) connections →
  broadcast_loop connections message sender s
  = (add_sent (map (λ ws, (ws, message))
                 (filter (λ ws, Some ws ≠ sender) connections)) s,
     Ok tt).
Proof.
  revert s. induction connections as [|ws rest IH]; intros s Hopen; simpl.
  - by rewrite add_sent_nil.
  - apply Forall_cons in Hopen as [Hws Hrest].
    unfold bind at 1. rewrite filter_cons.
    destruct (decide (Some ws ≠ sender)) as [Hne|Heq].
    + rewrite bool_decide_eq_true_2 by done.
      rewrite send_json_open by done.
      rewrite IH by done. simpl. by rewrite add_sent_app.
    + rewrite bool_decide_eq_false_2 by done. unfold ret at 1. by apply IH.
Qed.

Lemma all_open_values s : all_open s → Forall (is_open s) (PyDict.values (active_connections s)).
Proof. intros Hopen. unfold PyDict.values. by apply Forall_fmap. Qed.

Lemma broadcast_open s message sender :
  all_open s →
  broadcast message (Some sender) s = (add_sent (broadcast_delivery s message sender) s, Ok tt).
Proof.
  intros Hopen. unfold broadcast, bind, gets.
  rewrite broadcast_loop_open by by apply all_open_values.
  unfold broadcast_delivery. do 3 f_equal.
  apply list_filter_iff. intros ws. split; [by intros ? -> | by intros ? [= ->]].
Qed.

(** X9: a [message] frame with neither group nor [to] is delivered once
    to every registered channel other than the one it came in on, in
    registry order, and not to that one.  Nothing asks whether the
    connection has logged in: the turn is the same for every value of its
    [username]. *)
Theorem broadcast_routing s websocket local data :
  msg_type data = Some (Some "message") → truthy (msg_group data) = false →
  truthy (default None (msg_to data)) = false → all_open s →
  websocket_endpoint_turn websocket (Frame data) (s, local)
  = ((add_sent (broadcast_delivery s (Forwarded data) websocket) s, local), Running).
Proof.
  intros Hty Hgroup Hto Hopen.
  unfold websocket_endpoint_turn, loop_body, try_except, bind, receive_json, ret.
  unfold handle_frame, bind, getitem. rewrite Hty. unfold ret. simpl.
  rewrite Hgroup, Hto. unfold lift. simpl.
  by rewrite broadcast_open.
Qed.

Lemma broadcast_routing_witness :
  let hi := message_frame (Some "a") (Some "hi") None None in
  websocket_endpoint_turn 1 (Frame hi) (srv three_online, None)
  = ((add_sent (broadcast_delivery (srv three_online) (Forwarded hi) 1)
        (srv three_online), None), Running)
  ∧ broadcast_delivery (srv three_online) (Forwarded hi) 1
    = [(2, Forwarded hi); (3, Forwarded hi)].
Proof.
  intros hi. split; [|computed].
  apply (broadcast_routing (srv three_online) 1 None hi eq_refl eq_refl eq_refl).
  decide_computed.
Defined.

(** X10: [broadcast_to_group] does not leave the sender out.  With a
    Group Table, open channels and members that are user names, a group
    message goes to the channel registered for each member, in member
    order; a sender who is a member gets the own message back. *)
Theorem group_message_reaches_sender s table group_name members message sender :
  groups s = Some table → table !! group_name = Some members →
  Forall (λ u, u ≠ None) members → all_open s →
  broadcast_to_group group_name message (Some sender) s
  = (add_sent (flat_map (λ u, direct_delivery (active_connections s) u message) members) s,
     Ok tt)
  ∧ (∀ u, u ∈ members → lookup s u = Some sender →
       (sender, message)
       ∈ flat_map (λ u, direct_delivery (active_connections s) u message) members).
Proof.
  intros Htable Hmembers Hnames Hopen. split.
  - unfold broadcast_to_group, bind, gets. rewrite Htable, Hmembers. simpl.
    rewrite broadcast_to_group_loop_open by done. do 2 f_equal.
    unfold group_delivery. simpl. clear Hmembers.
    induction Hnames as [|u rest Hu _ IH]; simpl; [done|].
    rewrite bool_decide_eq_true_2 by done. by rewrite IH.
  - intros u Hin Hlookup. apply list_elem_of_In. apply in_flat_map.
    exists u. split; [by apply list_elem_of_In|].
    unfold direct_delivery. unfold lookup in Hlookup. rewrite Hlookup.
    by left.
Qed.

Lemma group_message_reaches_sender_witness :
  let s := set_groups {[ Some "g" := [Some "a"; Some "b"] ]} (srv three_online) in
  let hello := Forwarded (message_frame (Some "a") (Some "hi") (Some "g") None) in
  broadcast_to_group (Some "g") hello (Some 1) s
  = (add_sent (flat_map (λ u, direct_delivery (active_connections s) u hello)
                 [Some "a"; Some "b"]) s, Ok tt)
  ∧ (1, hello)
    ∈ flat_map (λ u, direct_delivery (active_connections s) u hello) [Some "a"; Some "b"].
Proof.
  intros s hello.
  assert (all_open s) as Hopen by decide_computed.
  assert (Forall (λ u : name, u ≠ None) [Some "a"; Some "b"]) as Hnames
    by (repeat constructor; discriminate).
  assert ((({[ Some "g" := [Some "a"; Some "b"] ]} : gmap name (list name)) !! Some "g")
          = Some [Some "a"; Some "b"]) as Hmembers by computed.
  destruct (group_message_reaches_sender s {[ Some "g" := [Some "a"; Some "b"] ]}
              (Some "g") [Some "a"; Some "b"] hello 1 eq_refl Hmembers Hnames Hopen)
    as [Hsend Hecho].
  split; [exact Hsend|].
  apply (Hecho (Some "a")); [apply list_elem_of_here | computed].
Defined.

(** ** Login on the endpoint *)

(** X11: a login repeated on the channel that already holds the user's
    Session closes that very channel: [login_user] closes the registered
    channel before it stores the new one, the response cannot be sent any
    more and is dropped, and the registry still points to the closed
    channel. *)
Theorem relogin_on_same_channel s websocket local u p record :
  user_credentials s !! u = Some p → user_data s !! u = Some record →
  lookup s u = Some websocket →
  ∃ s', websocket_endpoint_turn websocket (Frame (login_frame u p)) (s, local)
        = ((s', local), Running)
      ∧ closed s' = closed s ++ [websocket]
      ∧ sent s' = sent s
      ∧ lookup s' u = Some websocket
      ∧ ¬ is_open s' websocket.
Proof.
  intros Hcred Hrecord Hlookup.
  unfold websocket_endpoint_turn, loop_body, try_except, bind, receive_json, ret.
  unfold handle_frame, bind, getitem, ret, lift. simpl.
  unfold login_user, bind, gets. simpl. rewrite Hcred.
  rewrite bool_decide_eq_false_2 by (by intros ?).
  unfold lookup in Hlookup. rewrite Hlookup.
  unfold try_pass, close, modify, getitem. simpl. rewrite Hrecord.
  unfold ret, send_json. simpl.
  rewrite bool_decide_eq_true_2
    by (apply elem_of_app; right; apply list_elem_of_here).
  simpl. eexists. split; [done|]. simpl.
  split; [done|]. split; [done|]. split.
  - unfold lookup. simpl. apply get_set_eq.
  - intros [Hclosed _]. apply Hclosed. simpl.
    apply elem_of_app. right. apply list_elem_of_here.
Qed.

Lemma relogin_on_same_channel_witness :
  ∃ s', websocket_endpoint_turn 1 (Frame (login_frame (Some "a") (Some "pw")))
          (srv a_online, Some "a")
        = ((s', Some "a"), Running)
      ∧ closed s' = closed (srv a_online) ++ [1]
      ∧ sent s' = sent (srv a_online)
      ∧ lookup s' (Some "a") = Some 1
      ∧ ¬ is_open s' 1.
Proof.
  apply (relogin_on_same_channel (srv a_online) 1 (Some "a") (Some "a") (Some "pw")
           {| password := Some "pw"; friends := [] |}); computed.
Defined.

Lemma set_new {K V} `{EqDecision K} (k : K) (v : V) d :
  PyDict.get k d = None → PyDict.set k v d = d ++ [(k, v)].
Proof.
  induction d as [|[k' v'] d IH]; simpl; [done|].
  destruct (decide (k' = k)); [done|]. intros Hnone. by rewrite IH.
Qed.

(** X12: the first login of a user with the stored password, on open
    channels: the channel is added at the end of the registry, the
    response with the friend list goes to the new channel, a [user_online]
    notice goes to every channel registered before and none to the new
    one, and the coroutine keeps the user name. *)
Theorem first_login_announced s websocket local u p record :
  user_credentials s !! u = Some p → user_data s !! u = Some record →
  lookup s u = None → all_open s → is_open s websocket →
  websocket_endpoint_turn websocket (Frame (login_frame u p)) (s, local)
  = ((add_sent ((websocket, LoginOk u (friends record))
                :: broadcast_delivery s (UserOnline u) websocket)
        (set_active_connections (λ d, d ++ [(u, websocket)]) s), u),
     Running).
Proof.
  intros Hcred Hrecord Hlookup Hopen Hws. unfold lookup in Hlookup.
  assert (login_user websocket (login_frame u p) s
          = (set_active_connections (PyDict.set u websocket) s,
             Ok (LoginOk u (friends record)))) as Hlogin.
  { unfold login_user, bind, gets. simpl. rewrite Hcred.
    rewrite bool_decide_eq_false_2 by (by intros ?).
    rewrite Hlookup. unfold ret, modify, getitem. simpl. by rewrite Hrecord. }
  assert (set_active_connections (PyDict.set u websocket) s
          = set_active_connections (λ d, d ++ [(u, websocket)]) s) as Hs1.
  { unfold set_active_connections. by rewrite (set_new _ _ _ Hlookup). }
  rewrite Hs1 in Hlogin.
  remember (set_active_connections (λ d, d ++ [(u, websocket)]) s) as s1 eqn:Hdef.
  assert (active_connections s1 = active_connections s ++ [(u, websocket)]) as Hreg1
    by (by rewrite Hdef).
  assert (closed s1 = closed s ∧ peer_gone s1 = peer_gone s) as [Hc1 Hg1]
    by (by rewrite Hdef).
  assert (is_open s1 websocket) as Hws1.
  { unfold is_open. by rewrite Hc1, Hg1. }
  assert (all_open s1) as Hopen1.
  { unfold all_open, is_open. rewrite Hreg1, Hc1, Hg1.
    apply Forall_app. split; [done|]. by apply Forall_singleton. }
  unfold websocket_endpoint_turn, loop_body, try_except, bind, receive_json, ret.
  unfold handle_frame, bind, getitem, ret, lift. simpl.
  rewrite Hlogin. simpl.
  rewrite send_json_open by done. simpl.
  rewrite broadcast_open by (by apply all_open_add_sent).
  rewrite add_sent_app. simpl. do 4 f_equal.
  unfold broadcast_delivery. simpl. rewrite Hreg1. f_equal.
  unfold PyDict.values. rewrite fmap_app, filter_app. simpl.
  rewrite filter_cons_False by (by intros ?). by rewrite filter_nil, app_nil_r.
Qed.

Lemma first_login_announced_witness :
  let s := srv (run three_online [Accept 4;
                  Receive 4 (Frame (register_frame (Some "d") (Some "pd")))]) in
  websocket_endpoint_turn 4 (Frame (login_frame (Some "d") (Some "pd"))) (s, None)
  = ((add_sent ((4, LoginOk (Some "d") [])
                :: broadcast_delivery s (UserOnline (Some "d")) 4)
        (set_active_connections (λ d, d ++ [(Some "d", 4)]) s), Some "d"),
     Running)
  ∧ broadcast_delivery s (UserOnline (Some "d")) 4
    = [(1, UserOnline (Some "d")); (2, UserOnline (Some "d")); (3, UserOnline (Some "d"))].
Proof.
  intros s. split; [|computed].
  apply (first_login_announced s 4 None (Some "d") (Some "pd")
           {| password := Some "pd"; friends := [] |}).
  - computed.
  - computed.
  - computed.
  - decide_computed.
  - decide_computed.
Defined.

(** ** Friends *)

Lemma send_direct_message_user_data s recipient message :
  user_data (send_direct_message recipient message s).1 = user_data s.
Proof.
  rewrite send_direct_message_lookup.
  destruct (lookup s recipient) as [ws|]; [|done].
  unfold send_json. by repeat case_match.
Qed.

(** X13: [add_friend] appends and never checks what is already listed.
    For two different users with records, the target is added at the end
    of the requester's list and the requester at the end of the target's,
    so a repeated request lists them twice; a user who adds their own name
    gets it twice at once.  This holds whether or not the notices can be
    delivered. *)
Theorem add_friend_appends s a b ra rb :
  user_data s !! a = Some ra → user_data s !! b = Some rb →
  let s' := (handle_add_friend b a s).1 in
  (a ≠ b → friendsOf s' a = friends ra ++ [b] ∧ friendsOf s' b = friends rb ++ [a])
  ∧ (a = b → friendsOf s' a = friends ra ++ [a; a]).
Proof.
  intros Ha Hb s'.
  assert (∃ rb1, user_data s' = <[b := {| password := password rb1;
                                           friends := friends rb1 ++ [a] |}]>
                                  (<[a := {| password := password ra;
                                             friends := friends ra ++ [b] |}]>
                                     (user_data s))
                 ∧ (a = b → rb1 = {| password := password ra;
                                     friends := friends ra ++ [b] |})
                 ∧ (a ≠ b → rb1 = rb)) as (rb1 & Hdata & Hsame & Hdiff).
  { unfold s', handle_add_friend, bind at 1, gets at 1.
    rewrite bool_decide_eq_true_2 by by eexists.
    unfold bind at 1. rewrite (append_friend_known _ _ _ ra) by done.
    set (ra' := {| password := password ra; friends := friends ra ++ [b] |}).
    set (s1 := set_user_data _ s).
    assert (∃ rb1, user_data s1 !! b = Some rb1
                   ∧ (a = b → rb1 = ra') ∧ (a ≠ b → rb1 = rb))
      as (rb1 & Hb1 & Hsame & Hdiff).
    { unfold s1. simpl. destruct (decide (a = b)) as [->|Hne].
      - exists ra'. rewrite lookup_insert_eq. by split.
      - exists rb. rewrite lookup_insert_ne by done. by split. }
    exists rb1. split; [|done].
    unfold bind at 1. rewrite (append_friend_known _ _ _ rb1) by done.
    set (s2 := set_user_data _ s1).
    unfold bind at 1, save_user_data at 1.
    set (s3 := set_users_file _ s2).
    unfold bind.
    pose proof (send_direct_message_user_data s3 a (FriendAdded b)) as H1.
    destruct (send_direct_message a (FriendAdded b) s3) as [s4 [[]|e]]; simpl in *.
    - by rewrite send_direct_message_user_data, H1.
    - by rewrite H1. }
  unfold friendsOf. rewrite Hdata. split.
  - intros Hne. rewrite lookup_insert_ne by done. rewrite !lookup_insert_eq. simpl.
    by rewrite (Hdiff Hne).
  - intros ->. rewrite lookup_insert_eq. simpl. rewrite (Hsame eq_refl). simpl.
    by rewrite <- app_assoc.
Qed.

Lemma add_friend_appends_witness :
  let s := srv b_offline in
  let s1 := (handle_add_friend (Some "b") (Some "a") s).1 in
  let s2 := (handle_add_friend (Some "b") (Some "a") s1).1 in
  (friendsOf s2 (Some "a") = [Some "b"] ++ [Some "b"]
   ∧ friendsOf s2 (Some "b") = [Some "a"] ++ [Some "a"])
  ∧ friendsOf (handle_add_friend (Some "a") (Some "a") s).1 (Some "a")
    = [] ++ [Some "a"; Some "a"].
Proof.
  intros s s1 s2.
  assert (user_data s1 !! Some "a"
          = Some {| password := Some "pa"; friends := [Some "b"] |}) as Ha1 by computed.
  assert (user_data s1 !! Some "b"
          = Some {| password := Some "pb"; friends := [Some "a"] |}) as Hb1 by computed.
  assert (user_data s !! Some "a"
          = Some {| password := Some "pa"; friends := [] |}) as Ha by computed.
  split.
  - apply (proj1 (add_friend_appends s1 (Some "a") (Some "b") _ _ Ha1 Hb1)).
    discriminate.
  - apply (proj2 (add_friend_appends s (Some "a") (Some "a") _ _ Ha Ha)).
    reflexivity.
Defined.

(** X14: an [add_friend] frame from a connection whose user name has no
    user record (a connection that has not logged in, for one) changes
    nothing, whoever the target is: no list is half updated and nothing
    is sent. *)
Theorem add_friend_without_record_dropped s websocket local data :
  msg_type data = Some (Some "add_friend") → user_data s !! local = None →
  websocket_endpoint_turn websocket (Frame data) (s, local) = ((s, local), Running).
Proof.
  intros Hty Hlocal.
  unfold websocket_endpoint_turn, loop_body, try_except, bind, receive_json, ret.
  unfold handle_frame, bind, getitem. rewrite Hty. unfold ret. simpl.
  destruct (msg_friend data) as [friend|]; [|done]. simpl.
  unfold lift, handle_add_friend, bind, gets. simpl.
  destruct (bool_decide (is_Some (user_data s !! friend))); [|done].
  unfold append_friend, bind, gets, getitem. by rewrite Hlocal.
Qed.

Lemma add_friend_without_record_dropped_witness :
  websocket_endpoint_turn 2 (Frame (add_friend_frame (Some "a"))) (srv b_offline, None)
  = ((srv b_offline, None), Running).
Proof.
  apply add_friend_without_record_dropped; computed.
Defined.

(** ** The endpoint loop *)

(** X15: the loop of [websocket_endpoint] is never left through its own
    handlers.  Whatever a turn receives, the coroutine does not return;
    only an exception outside [Exception] can pass; and when
    [receive_json] raises an exception that derives from [Exception], a
    [WebSocketDisconnect] included, nothing changes and the loop goes
    on: the registry entry of the connection's user is not removed and no
    [user_offline] is sent. *)
Theorem endpoint_loop_never_ends websocket r st :
  (websocket_endpoint_turn websocket r st).2 ≠ Returned
  ∧ (∀ e, (websocket_endpoint_turn websocket r st).2 = Propagated e →
       is_Exception e = false)
  ∧ (∀ e, r = Raises e → is_Exception e = true →
       websocket_endpoint_turn websocket r st = (st, Running)).
Proof.
  destruct (websocket_endpoint_turn websocket r st) as [st' outcome] eqn:Hturn.
  pose proof (websocket_endpoint_never_cleans_up _ _ _ _ _ Hturn) as Hout.
  split; [|split].
  - simpl. intros ->. by destruct Hout as [? | (e & ? & _)].
  - simpl. intros e ->. destruct Hout as [? | (e' & [= <-] & He)]; done.
  - intros e -> He. rewrite <- Hturn.
    unfold websocket_endpoint_turn, loop_body, try_except, bind, receive_json, raise.
    destruct (bool_decide (e = JSONDecodeError)); [done|]. by rewrite He.
Qed.

Lemma endpoint_loop_never_ends_witness :
  websocket_endpoint_turn 1 (Raises WebSocketDisconnect) (srv a_online, Some "a")
  = ((srv a_online, Some "a"), Running).
Proof.
  by apply (proj2 (proj2 (endpoint_loop_never_ends 1 (Raises WebSocketDisconnect)
                            (srv a_online, Some "a"))) WebSocketDisconnect).
Defined.

Lemma broadcast_loop_raises connections message sender s s' e :
  broadcast_loop connections message sender s = (s', Raise e) → is_Exception e = true.
Proof.
  revert s. induction connections as [|ws rest IH]; intros s; simpl; [done|].
  unfold bind at 1. destruct (bool_decide (Some ws ≠ sender)).
  - unfold send_json.
    destruct (bool_decide (ws ∈ closed s)); [by intros [= _ <-]|].
    destruct (bool_decide (ws ∈ peer_gone s)); [by intros [= _ <-]|].
    apply IH.
  - unfold ret at 1. apply IH.
Qed.

(** X16: one dead entry in the registry cuts every broadcast short.  When
    the registry lists open channels, then a channel that is closed or
    whose peer is gone, then further entries, a chat line for everybody
    from another channel reaches the entries before the dead one only; the
    entries after it get nothing, the registry is left as it is, and the
    sender is told nothing. *)
Theorem broadcast_cut_short s websocket local data before u dead after :
  msg_type data = Some (Some "message") → truthy (msg_group data) = false →
  truthy (default None (msg_to data)) = false →
  active_connections s = before ++ (u, dead) :: after →
  Forall (λ item, is_open s item.2) before → ¬ is_open s dead → dead ≠ websocket →
  websocket_endpoint_turn websocket (Frame data) (s, local)
  = ((add_sent (map (λ ws, (ws, Forwarded data))
                  (filter (λ ws, ws ≠ websocket) before.*2)) s, local),
     Running).
Proof.
  intros Hty Hgroup Hto Hreg Hbefore Hdead Hsender.
  unfold websocket_endpoint_turn, loop_body, try_except, bind, receive_json, ret.
  unfold handle_frame, bind, getitem. rewrite Hty. unfold ret. simpl.
  rewrite Hgroup, Hto. unfold lift, broadcast, bind, gets. simpl.
  rewrite Hreg. unfold PyDict.values. rewrite fmap_app, fmap_cons. simpl.
  destruct (broadcast_loop_aborts s before.*2 dead after.*2 (Forwarded data)
              (Some websocket)) as [e He].
  - by apply Forall_fmap.
  - done.
  - by intros [= ->].
  - rewrite He. pose proof (broadcast_loop_raises _ _ _ _ _ _ He) as Hexc.
    assert (filter (λ ws : WebSocket, Some ws ≠ Some websocket) before.*2
            = filter (λ ws, ws ≠ websocket) before.*2) as ->.
    { apply list_filter_iff. intros ws.
      split; [by intros ? -> | by intros ? [= ->]]. }
    destruct (bool_decide (e = JSONDecodeError)); [done|]. by rewrite Hexc.
Qed.

Lemma broadcast_cut_short_witness :
  let s := srv (run three_online [Disconnect 2]) in
  websocket_endpoint_turn 3 (Frame hi_from_c) (s, Some "c")
  = ((add_sent (map (λ ws, (ws, Forwarded hi_from_c))
                  (filter (λ ws, ws ≠ 3) [(Some "a", 1)].*2)) s, Some "c"),
     Running).
Proof.
  intros s.
  apply (broadcast_cut_short s 3 (Some "c") hi_from_c [(Some "a", 1)] (Some "b") 2
           [(Some "c", 3)] eq_refl eq_refl eq_refl).
  - computed.
  - decide_computed.
  - refute_computed.
  - discriminate.
Defined.

(** ** The module-level [broadcast_message] *)

Lemma keys_del_elem {K V} `{EqDecision K} (k x : K) (d : list (K * V)) :
  x ∈ PyDict.keys (PyDict.del k d) → x ∈ PyDict.keys d.
Proof.
  unfold PyDict.keys. induction d as [|[k' v'] d IH]; simpl; [done|].
  destruct (decide (k' = k)) as [->|Hne]; simpl.
  - intros Hin. by apply list_elem_of_further.
  - rewrite !elem_of_cons. intros [-> | Hin]; [by left | right; by apply IH].
Qed.

Lemma NoDup_keys_del {K V} `{EqDecision K} (k : K) (d : list (K * V)) :
  NoDup (PyDict.keys d) → NoDup (PyDict.keys (PyDict.del k d)).
Proof.
  induction d as [|[k' v'] d IH]; simpl; [done|].
  unfold PyDict.keys in *. simpl. rewrite NoDup_cons. intros [Hnin Hnd].
  destruct (decide (k' = k)) as [->|Hne]; simpl; [done|].
  apply NoDup_cons. split; [|by apply IH].
  intros Hin. apply Hnin. by apply (keys_del_elem k).
Qed.

Lemma get_del {K V} `{EqDecision K} (k u : K) (d : list (K * V)) :
  NoDup (PyDict.keys d) →
  PyDict.get u (PyDict.del k d) = if decide (k = u) then None else PyDict.get u d.
Proof.
  intros Hnd. destruct (decide (k = u)) as [->|Hne].
  - by apply get_del_eq.
  - by apply get_del_ne.
Qed.

Lemma broadcast_message_loop_spec s items message exclude acc :
  broadcast_message_loop items message exclude acc s
  = (add_sent (map (λ item, (item.2, message)) (filter (served s exclude) items)) s,
     Ok (acc ++ (filter (found_dead s exclude) items).*1)).
Proof.
  revert s acc. induction items as [|[u ws] items IH]; intros s acc; simpl.
  - by rewrite add_sent_nil, app_nil_r.
  - unfold bind at 1. rewrite !filter_cons.
    destruct (decide (u = exclude)) as [->|Hne].
    + rewrite bool_decide_eq_false_2 by (by intros ?). unfold ret at 1.
      rewrite decide_False by (by intros [? _]).
      rewrite decide_False by (by intros [? _]). apply IH.
    + rewrite bool_decide_eq_true_2 by done.
      unfold try_except, bind at 1.
      destruct (decide (is_open s ws)) as [Hopen|Hdead].
      * rewrite send_json_open by done. unfold ret at 1.
        rewrite decide_True by done.
        rewrite decide_False by (by intros [_ ?]).
        rewrite IH. simpl. rewrite add_sent_app. do 2 f_equal.
      * destruct (send_json_not_open s ws message Hdead) as (e & -> & ->).
        unfold ret at 1.
        rewrite decide_False by (by intros [_ ?]).
        rewrite decide_True by done.
        rewrite IH. simpl. by rewrite <- app_assoc.
Qed.

Lemma remove_disconnected_spec s disconnected_users :
  NoDup (PyDict.keys (active_connections s)) →
  ∃ s', remove_disconnected disconnected_users s = (s', Ok tt)
      ∧ sent s' = sent s
      ∧ ∀ u, lookup s' u
             = if decide (u ∈ disconnected_users) then None else lookup s u.
Proof.
  revert s. induction disconnected_users as [|k rest IH]; intros s Hnd; simpl.
  - exists s. split; [done|]. split; [done|]. intros u.
    first [done | by rewrite decide_False by apply not_elem_of_nil].
  - unfold bind at 1, gets at 1. unfold bind at 1.
    assert (∃ s1, (if PyDict.contains k (active_connections s)
                   then modify (set_active_connections (PyDict.del k))
                   else ret tt) s = (s1, Ok tt)
                  ∧ sent s1 = sent s
                  ∧ NoDup (PyDict.keys (active_connections s1))
                  ∧ ∀ u, lookup s1 u = if decide (k = u) then None else lookup s u)
      as (s1 & -> & Hsent1 & Hnd1 & Hlookup1).
    { unfold PyDict.contains.
      destruct (PyDict.get k (active_connections s)) eqn:Hget.
      - eexists. split; [done|]. simpl. split; [done|].
        split; [by apply NoDup_keys_del|].
        intros u. unfold lookup. simpl. by apply get_del.
      - exists s. split; [done|]. split; [done|]. split; [done|].
        intros u. destruct (decide (k = u)) as [<-|]; [done|done]. }
    destruct (IH s1 Hnd1) as (s' & Hrun & Hsent & Hlookup).
    exists s'. split; [done|]. split; [congruence|].
    intros u. rewrite Hlookup, Hlookup1.
    destruct (decide (k = u)) as [<-|Hne].
    + rewrite (decide_True (P := k ∈ k :: rest)) by apply list_elem_of_here.
      by destruct (decide (k ∈ rest)).
    + destruct (decide (u ∈ rest)) as [Hin|Hnin].
      * by rewrite decide_True by by apply list_elem_of_further.
      * rewrite decide_False; [done|].
        rewrite elem_of_cons. by intros [-> | ?].
Qed.

(** X17: the module-level [broadcast_message] never raises.  It delivers
    the message once to every open channel that is not the excluded
    user's, in registry order; afterwards every user whose channel was
    closed or gone has left the registry and every other entry is where
    it was. *)
Theorem broadcast_message_serves_and_cleans s message exclude :
  NoDup (PyDict.keys (active_connections s)) →
  ∃ s', broadcast_message message exclude s = (s', Ok tt)
      ∧ sent s' = sent s
          ++ map (λ item, (item.2, message))
               (filter (served s exclude) (active_connections s))
      ∧ (∀ u ws, lookup s u = Some ws → u ≠ exclude → ¬ is_open s ws →
           lookup s' u = None)
      ∧ (∀ u ws, lookup s u = Some ws → u = exclude ∨ is_open s ws →
           lookup s' u = Some ws).
Proof.
  intros Hnd. unfold broadcast_message, bind at 1, gets at 1. unfold bind.
  rewrite broadcast_message_loop_spec. simpl.
  set (s1 := add_sent _ s).
  destruct (remove_disconnected_spec s1
              (filter (found_dead s exclude) (active_connections s)).*1 Hnd)
    as (s' & -> & Hsent & Hlookup).
  exists s'. split; [done|]. split; [by rewrite Hsent|]. split.
  - intros u ws Hws Hne Hdead. rewrite Hlookup.
    rewrite decide_True; [done|].
    apply list_elem_of_fmap. exists (u, ws). split; [done|].
    apply list_elem_of_filter. split; [done|]. by apply get_Some_elem.
  - intros u ws Hws Hok. rewrite Hlookup.
    rewrite decide_False; [done|].
    intros Hin. apply list_elem_of_fmap in Hin as ([u' ws'] & -> & Hin).
    apply list_elem_of_filter in Hin as [[Hne Hdead] Hin]. simpl in *.
    apply (elem_get_NoDup _ _ _ Hnd) in Hin. unfold lookup in Hws.
    rewrite Hws in Hin. injection Hin as <-.
    by destruct Hok.
Qed.

Lemma broadcast_message_serves_and_cleans_witness :
  let s := srv (run three_online [Disconnect 1]) in
  ∃ s', broadcast_message (Forwarded hi_from_c) (Some "c") s = (s', Ok tt)
      ∧ sent s' = sent s
          ++ map (λ item, (item.2, Forwarded hi_from_c))
               (filter (served s (Some "c")) (active_connections s))
      ∧ (∀ u ws, lookup s u = Some ws → u ≠ Some "c" → ¬ is_open s ws →
           lookup s' u = None)
      ∧ (∀ u ws, lookup s u = Some ws → u = Some "c" ∨ is_open s ws →
           lookup s' u = Some ws).
Proof.
  intros s. apply broadcast_message_serves_and_cleans.
  decide_computed.
Defined.

(** * A [ChatClient] connected to the server *)

Section maintains.
Context {St : Type} (proj : St → server) (I : server → Prop).

Lemma maintains_ret {A} (a : A) : maintains proj I (ret a).
Proof. by intros st. Qed.

Lemma maintains_raise {A} e : maintains proj I (@raise St A e).
Proof. by intros st. Qed.

Lemma maintains_gets {A} (f : St → A) : maintains proj I (gets f).
Proof. by intros st. Qed.

Lemma maintains_getitem {A} (v : option A) : maintains proj I (@getitem St A v).
Proof. destruct v; [apply maintains_ret | apply maintains_raise]. Qed.

Lemma maintains_of_res {A} (r : res A) : maintains proj I (@of_res St A r).
Proof. destruct r; [apply maintains_ret | apply maintains_raise]. Qed.

Lemma maintains_bind {A B} (c : M St A) (k : A → M St B) :
  maintains proj I c → (∀ a, maintains proj I (k a)) → maintains proj I (bind c k).
Proof.
  intros Hc Hk st HI. unfold bind. specialize (Hc st HI).
  destruct (c st) as [st' [a|e]]; simpl in *; [|done]. by apply Hk.
Qed.

(** After [gets f] the continuation may use that the state had [I]. *)
Lemma maintains_bind_gets {A B} (f : St → A) (k : A → M St B) :
  (∀ st, I (proj st) → I (proj (k (f st) st).1)) → maintains proj I (bind (gets f) k).
Proof. intros Hk st HI. unfold bind, gets. by apply Hk. Qed.

Lemma maintains_try_except {A} (c : M St A) (handler : exn → M St A) :
  maintains proj I c → (∀ e, maintains proj I (handler e)) →
  maintains proj I (try_except c handler).
Proof.
  intros Hc Hh st HI. unfold try_except. specialize (Hc st HI).
  destruct (c st) as [st' [a|e]]; simpl in *; [done|]. by apply Hh.
Qed.
End maintains.

Lemma maintains_lift {A} I (c : M server A) :
  maintains id I c → maintains fst I (lift c).
Proof.
  intros Hc st HI. unfold lift. specialize (Hc st.1 HI).
  by destruct (c st.1) as [s' r].
Qed.

Section unheard.
Variable quiet : WebSocket.

Lemma unheard_send_json connection message :
  connection ≠ quiet → maintains id (unheard quiet) (send_json connection message).
Proof.
  intros Hne s [Hreg Hsent]. unfold send_json. simpl.
  repeat case_match; simpl; try done.
  split; [done|]. simpl. apply Forall_app. split; [done|]. by apply Forall_singleton.
Qed.

Lemma unheard_broadcast_loop connections message sender :
  quiet ∉ connections →
  maintains id (unheard quiet) (broadcast_loop connections message sender).
Proof.
  induction connections as [|ws rest IH]; simpl; [intros _; apply maintains_ret|].
  rewrite not_elem_of_cons. intros [Hne Hrest].
  apply maintains_bind; [|intros _; by apply IH].
  case_match; [by apply unheard_send_json | apply maintains_ret].
Qed.

Lemma unheard_broadcast message sender :
  maintains id (unheard quiet) (broadcast message sender).
Proof.
  apply maintains_bind_gets. intros s Hs. simpl.
  apply unheard_broadcast_loop; [|done]. by destruct Hs.
Qed.

Lemma unheard_send_direct_message_loop items recipient message :
  quiet ∉ items.*2 →
  maintains id (unheard quiet) (send_direct_message_loop items recipient message).
Proof.
  induction items as [|[u ws] rest IH]; simpl; [intros _; apply maintains_ret|].
  rewrite not_elem_of_cons. intros [Hne Hrest].
  case_match; [by apply unheard_send_json | by apply IH].
Qed.

Lemma unheard_send_direct_message recipient message :
  maintains id (unheard quiet) (send_direct_message recipient message).
Proof.
  apply maintains_bind_gets. intros s Hs. simpl.
  apply unheard_send_direct_message_loop; [|done]. by destruct Hs.
Qed.

Lemma unheard_broadcast_to_group_loop group_members message sender :
  maintains id (unheard quiet) (broadcast_to_group_loop group_members message sender).
Proof.
  induction group_members as [|u rest IH]; simpl; [apply maintains_ret|].
  apply maintains_bind; [apply maintains_gets|]. intros found.
  apply maintains_bind; [|done].
  case_match; [apply unheard_send_direct_message | apply maintains_ret].
Qed.

Lemma unheard_broadcast_to_group group_name message sender :
  maintains id (unheard quiet) (broadcast_to_group group_name message sender).
Proof.
  apply maintains_bind; [apply maintains_gets|]. intros [table|].
  - apply unheard_broadcast_to_group_loop.
  - apply maintains_raise.
Qed.

Lemma unheard_register_user websocket data :
  maintains id (unheard quiet) (register_user websocket data).
Proof.
  intros s Hs. unfold register_user, bind, gets, modify, save_user_data, ret. simpl.
  by case_match.
Qed.

Lemma values_set_elem (d : list (name * WebSocket)) u ws x :
  x ∈ PyDict.values (PyDict.set u ws d) → x = ws ∨ x ∈ PyDict.values d.
Proof.
  unfold PyDict.values. induction d as [|[u' ws'] d IH]; simpl.
  - rewrite list_elem_of_singleton. by left.
  - destruct (decide (u' = u)) as [->|Hne]; simpl; rewrite !elem_of_cons.
    + intros [-> | Hin]; [by left | right; by right].
    + intros [-> | Hin]; [right; by left|].
      destruct (IH Hin) as [-> | ?]; [by left | right; by right].
Qed.

Lemma unheard_login_user websocket data :
  websocket ≠ quiet → maintains id (unheard quiet) (login_user websocket data).
Proof.
  intros Hne s [Hreg Hsent]. unfold login_user, bind, gets. simpl.
  destruct (user_credentials s !! msg_username data) as [stored|]; [|done].
  case_match; [done|].
  assert (∀ s0, active_connections s0 = active_connections s → sent s0 = sent s →
            unheard quiet
              (set_active_connections (PyDict.set (msg_username data) websocket) s0))
    as Hset.
  { intros s0 Hr Hs. split; simpl; [|by rewrite Hs].
    rewrite Hr. intros Hin. apply values_set_elem in Hin as [-> | Hin]; done. }
  destruct (PyDict.get (msg_username data) (active_connections s)) as [old|];
    unfold try_pass, close, modify, getitem, ret; simpl;
    destruct (user_data s !! msg_username data); simpl; by apply Hset.
Qed.

Lemma unheard_handle_create_group group_name members username :
  maintains id (unheard quiet) (handle_create_group group_name members username).
Proof.
  apply maintains_bind; [apply maintains_gets|]. intros [table|];
    [|apply maintains_raise].
  apply maintains_bind; [by intros s Hs|].
  intros _. apply unheard_broadcast_to_group.
Qed.

Lemma unheard_append_friend who new_friend :
  maintains id (unheard quiet) (append_friend who new_friend).
Proof.
  apply maintains_bind; [apply maintains_gets|]. intros data.
  apply maintains_bind; [apply maintains_getitem|]. intros record.
  by intros s Hs.
Qed.

Lemma unheard_handle_add_friend friend_username username :
  maintains id (unheard quiet) (handle_add_friend friend_username username).
Proof.
  apply maintains_bind; [apply maintains_gets|]. intros data.
  case_match; [|apply maintains_ret].
  repeat (apply maintains_bind;
          [first [apply unheard_append_friend | apply unheard_send_direct_message
                 | by intros s Hs]|intros _]).
  apply unheard_send_direct_message.
Qed.

Ltac unheard_steps :=
  repeat first
    [ progress intros
    | apply maintains_lift
    | apply maintains_ret
    | apply maintains_raise
    | apply maintains_getitem
    | apply maintains_of_res
    | apply maintains_gets
    | apply unheard_register_user
    | apply unheard_broadcast
    | apply unheard_send_direct_message
    | apply unheard_broadcast_to_group
    | apply unheard_handle_create_group
    | apply unheard_handle_add_friend
    | by apply unheard_send_json
    | by apply unheard_login_user
    | by (intros ? ?)
    | apply maintains_bind
    | case_match ].

(** A turn on another channel, whatever it receives. *)
Lemma unheard_other_frame websocket data :
  websocket ≠ quiet → maintains fst (unheard quiet) (handle_frame websocket data).
Proof.
  intros Hne. unfold handle_frame, get_username, set_username, handle_call_request,
    handle_screen_share, modify.
  unheard_steps.
Qed.

(** A turn on the quiet channel itself, for a frame of a [ChatClient]. *)
Lemma unheard_client_frame text :
  maintains fst (unheard quiet) (handle_frame quiet (to_server text)).
Proof.
  destruct text as [username|username content timestamp];
    unfold handle_frame, bind, getitem, ret; simpl.
  - by intros st Hst.
  - apply maintains_lift, unheard_broadcast.
Qed.

Lemma unheard_turn websocket r st :
  from_chat_client quiet (Receive websocket r) →
  unheard quiet st.1 → unheard quiet (websocket_endpoint_turn websocket r st).1.1.
Proof.
  intros Hfrom. rewrite websocket_endpoint_turn_state. revert st.
  change (maintains fst (unheard quiet) (loop_body websocket r)).
  unfold loop_body. apply maintains_try_except.
  - destruct r as [data|e]; unfold receive_json.
    + intros st Hst. unfold bind, ret. simpl.
      destruct (decide (websocket = quiet)) as [->|Hne].
      * destruct (Hfrom eq_refl) as [text ->]. by apply unheard_client_frame.
      * by apply unheard_other_frame.
    + by intros st Hst.
  - intros e. repeat case_match; first [apply maintains_ret | apply maintains_raise].
Qed.

Lemma unheard_system_turn websocket r sys :
  from_chat_client quiet (Receive websocket r) →
  unheard quiet (srv sys) → unheard quiet (srv (turn websocket r sys)).
Proof.
  intros Hfrom Hsys. unfold turn.
  destruct (locals sys !! websocket) as [username|]; [|done].
  pose proof (unheard_turn websocket r (srv sys, username) Hfrom Hsys) as Hturn.
  destruct (websocket_endpoint_turn websocket r (srv sys, username))
    as [[s' username'] outcome].
  by destruct outcome.
Qed.

Lemma unheard_step sys ev :
  from_chat_client quiet ev → unheard quiet (srv sys) → unheard quiet (srv (step sys ev)).
Proof.
  destruct ev as [ws|ws r|ws]; simpl; intros Hfrom Hsys.
  - done.
  - by apply unheard_system_turn.
  - by apply unheard_system_turn.
Qed.
End unheard.

(** X18: a connection that talks like [ChatClient] is never sent
    anything.  The client opens with a [join] frame and then writes
    [message] frames; it never logs in.  Whatever other connections do, a
    channel on which only such frames arrive does not enter the registry
    and no frame is ever delivered to it. *)
Theorem chat_client_never_hears file evs websocket :
  Forall (from_chat_client websocket) evs →
  let s := srv (run (start file) evs) in
  (websocket ∉ PyDict.values (active_connections s))
  ∧ Forall (λ item, item.1 ≠ websocket) (sent s).
Proof.
  intros Hfrom. simpl.
  assert (unheard websocket (srv (start file))) as Hstart.
  { destruct file; split; simpl; (apply not_elem_of_nil || apply Forall_nil_2). }
  revert Hstart. generalize (start file).
  induction Hfrom as [|ev evs Hev _ IH]; intros sys Hsys; simpl; [done|].
  apply IH. by apply unheard_step.
Qed.

Lemma chat_client_never_hears_witness :
  let s := srv (run (start None) client_and_b) in
  (1 ∉ PyDict.values (active_connections s))
  ∧ Forall (λ item, item.1 ≠ 1) (sent s).
Proof.
  apply (chat_client_never_hears None client_and_b 1).
  unfold client_and_b.
  repeat (apply Forall_cons; split;
          [first [exact I | by intros [=] | intros _; by eexists]|]).
  apply Forall_nil_2.
Defined.

(** * More on the client *)
Section more_client_facts.
Import Client.
Local Open Scope Z_scope.

Lemma backoff_schedule_powers j n :
  backoff_schedule (Z.min (2 ^ Z.of_nat j) 30) n
  = (λ k : nat, Z.min (2 ^ Z.of_nat (j + k)) 30) <$> seq 0 n.
Proof.
  revert j. induction n as [|n IH]; intros j; simpl; [done|].
  rewrite Nat.add_0_r. f_equal.
  replace (Z.min (Z.min (2 ^ Z.of_nat j) 30 * 2) 30)
    with (Z.min (2 ^ Z.of_nat (S j)) 30).
  - rewrite IH. rewrite <- seq_shift, <- list_fmap_compose.
    apply list_fmap_ext. intros _ k _. simpl. do 3 f_equal. lia.
  - rewrite Nat2Z.inj_succ, Z.pow_succ_r by lia.
    pose proof (Z.pow_pos_nonneg 2 (Z.of_nat j)). lia.
Qed.

Lemma failed_attempt_sleeps c outcome :
  failed outcome → phase c = Connecting → max_reconnect_delay c = 30 →
  let c' := run c [Connect outcome; Wake] in
  phase c' = Connecting ∧ max_reconnect_delay c' = 30
  ∧ reconnect_delay c' = Z.min (reconnect_delay c * 2) 30
  ∧ slept c' = slept c ++ [reconnect_delay c].
Proof.
  intros Hfail Hphase Hmax.
  destruct c as [u url input queue label lines ws delay maxd conn ph sch w sl].
  simpl in *. subst ph maxd.
  destruct outcome as [e|h e|h]; [| |by destruct (Hfail h)].
  - by destruct e as [[] txt].
  - by destruct e as [[] txt].
Qed.

Lemma failed_attempts_sleep outcomes c :
  Forall failed outcomes → phase c = Connecting → max_reconnect_delay c = 30 →
  slept (run c (attempts outcomes))
  = slept c ++ backoff_schedule (reconnect_delay c) (length outcomes).
Proof.
  intros Hfail. revert c. induction Hfail as [|outcome outcomes Hout _ IH];
    intros c Hphase Hmax.
  - simpl. by rewrite app_nil_r.
  - destruct (failed_attempt_sleeps c outcome Hout Hphase Hmax)
      as (Hphase' & Hmax' & Hdelay' & Hslept').
    change (run c (attempts (outcome :: outcomes)))
      with (run (run c [Connect outcome; Wake]) (attempts outcomes)).
    rewrite IH by done. rewrite Hslept', Hdelay'. simpl.
    by rewrite <- app_assoc.
Qed.

(** X19: the schedule of the backoff.  Connection attempts that fail one
    after the other from the start of the client, however each fails,
    sleep 1, 2, 4, 8, 16 and from then on 30 seconds: the sleep of attempt
    number [k] (from 0) is [min (2^k) 30]. *)
Theorem backoff_schedule_from_start username url outcomes :
  Forall failed outcomes →
  slept (run (init username url) (attempts outcomes))
  = (λ k : nat, Z.min (2 ^ Z.of_nat k) 30) <$> seq 0 (length outcomes).
Proof.
  intros Hfail. rewrite failed_attempts_sleep by done. simpl.
  apply (backoff_schedule_powers 0).
Qed.

Lemma backoff_schedule_from_start_witness :
  slept (run (init "ann" "wss://localhost:8765")
           (attempts (replicate 7 (ConnectRaises
                        {| connection_closed := false; text_of := "refused" |}))))
  = [1; 2; 4; 8; 16; 30; 30].
Proof.
  apply (backoff_schedule_from_start "ann" "wss://localhost:8765"
           (replicate 7 (ConnectRaises
              {| connection_closed := false; text_of := "refused" |}))).
  by repeat constructor.
Defined.

(** ** The queue between the network side and the display *)

Lemma puts_queue items c :
  puts items c
  = {| username := username c; ws_url := ws_url c;
       message_input := message_input c;
       message_queue := message_queue c ++ items;
       status_label := status_label c; chat_display := chat_display c;
       websocket := websocket c; reconnect_delay := reconnect_delay c;
       max_reconnect_delay := max_reconnect_delay c;
       connected := connected c; phase := phase c;
       scheduled := scheduled c; wire := wire c; slept := slept c |}.
Proof.
  unfold puts. revert c. induction items as [|item items IH]; intros c; simpl.
  - rewrite app_nil_r. by destruct c.
  - rewrite IH. simpl. by rewrite <- app_assoc.
Qed.

Lemma drain_app earlier later label lines :
  drain (earlier ++ later) label lines
  = drain later (drain earlier label lines).1 (drain earlier label lines).2.
Proof.
  revert label lines. induction earlier as [|[text color|line] earlier IH];
    intros label lines; simpl; [done|apply IH..].
Qed.

Lemma drain_lines items label lines :
  (drain items label lines).2 = lines ++ chat_lines items.
Proof.
  revert label lines. induction items as [|[text color|line] items IH];
    intros label lines; simpl.
  - by rewrite app_nil_r.
  - apply IH.
  - rewrite IH. by rewrite <- app_assoc.
Qed.

(** X20: it does not matter when the display polls.  Polling between two
    batches of queued items and again after the second shows exactly what
    one poll after both batches shows; a poll empties the queue and adds
    the chat lines to the display in the order they were queued. *)
Theorem poll_any_time c earlier later :
  process_message_queue (puts later (process_message_queue (puts earlier c)))
  = process_message_queue (puts (earlier ++ later) c)
  ∧ message_queue (process_message_queue (puts earlier c)) = []
  ∧ chat_display (process_message_queue (puts earlier c))
    = chat_display c ++ chat_lines (message_queue c ++ earlier).
Proof.
  rewrite !puts_queue. unfold process_message_queue. simpl.
  split; [|split].
  - rewrite (app_assoc (message_queue c) earlier later).
    rewrite (drain_app (message_queue c ++ earlier) later).
    destruct (drain (message_queue c ++ earlier) (status_label c) (chat_display c))
      as [label lines]. simpl.
    by destruct (drain later label lines).
  - by destruct (drain _ _ _).
  - pose proof (drain_lines (message_queue c ++ earlier) (status_label c)
                  (chat_display c)) as Hlines.
    by destruct (drain _ _ _).
Qed.

(** ** A message typed while connected *)

(** X21: a message typed and sent while the client is connected is
    written to the transport at most once.  When the write succeeds, the
    wire gets one [message] frame with the client's user name and the
    text without its surrounding white space, and the delay is back at 1;
    when the write fails, nothing is written, one error status is queued,
    the client is marked disconnected, and the message is gone: nothing
    is left scheduled. *)
Theorem typed_message_written_at_most_once c connection text :
  connected c = true → websocket c = Some connection → scheduled c = [] →
  strip text ≠ "" →
  (∀ timestamp,
     let c' := run c [Typed text; PressSend; RunSend (Sent timestamp)] in
     wire c' = wire c ++ [(connection, Message (username c) (strip text) timestamp)]
     ∧ message_input c' = "" ∧ scheduled c' = []
     ∧ reconnect_delay c' = 1 ∧ message_queue c' = message_queue c)
  ∧ (∀ e,
       let c' := run c [Typed text; PressSend; RunSend (SendRaises e)] in
       wire c' = wire c ∧ scheduled c' = []
       ∧ connected c' = false ∧ websocket c' = None
       ∧ message_queue c'
         = message_queue c ++ [STATUS ("Error sending message: " +:+ text_of e) "red"]).
Proof.
  intros Hconn Hws Hsch Htext.
  apply String.eqb_neq in Htext.
  assert (∀ outcome,
            run c [Typed text; PressSend; RunSend outcome]
            = send_ws_message (strip text) outcome
                (set_scheduled [] (set_message_input "" c))) as Hrun.
  { intros outcome.
    assert (∀ c0 ev, (∀ outcome0, ev ≠ Connect outcome0) →
              (∀ outcome0, ev ≠ Recv outcome0) → ev ≠ Wake →
              step c0 ev
              = match ev with
                | RunSend outcome0 =>
                    match scheduled c0 with
                    | message :: rest =>
                        send_ws_message message outcome0 (set_scheduled rest c0)
                    | [] => c0
                    end
                | Typed text0 => set_message_input text0 c0
                | PressSend => send_message c0
                | Poll => process_message_queue c0
                | _ => c0
                end) as Hstep.
    { intros c0 ev H1 H2 H3. unfold step.
      destruct ev as [o|o| |o|t| |];
        [by destruct (H1 o) | by destruct (H2 o) | done | ..];
        by destruct (phase c0). }
    unfold run. cbn [foldl].
    rewrite (Hstep _ (Typed text)) by done.
    rewrite (Hstep _ PressSend) by done.
    unfold send_message. cbn [message_input set_message_input].
    rewrite Htext. cbn [connected set_message_input]. rewrite Hconn. cbn [negb].
    rewrite (Hstep _ (RunSend outcome)) by done.
    cbn [scheduled set_scheduled set_message_input]. rewrite Hsch. cbn [app].
    reflexivity. }
  split.
  - intros timestamp c'. unfold c'. rewrite Hrun.
    unfold send_ws_message. simpl. by rewrite Hws.
  - intros e c'. unfold c'. rewrite Hrun.
    unfold send_ws_message. simpl. by rewrite Hws.
Qed.

Lemma typed_message_written_at_most_once_witness :
  let c := step (init "ann" "wss://localhost:8765") (Connect (Joined 7%nat)) in
  let c' := run c [Typed "  hello "; PressSend; RunSend (Sent "12:00")] in
  wire c' = wire c ++ [(7%nat, Message (username c) (strip "  hello ") "12:00")]
  ∧ message_input c' = "" ∧ scheduled c' = []
  ∧ reconnect_delay c' = 1 ∧ message_queue c' = message_queue c.
Proof.
  intros c.
  apply (proj1 (typed_message_written_at_most_once c 7%nat "  hello "
                  eq_refl eq_refl eq_refl ltac:(vm_compute; discriminate))).
Defined.

(** ** What reaches the wire *)

Ltac client_cases c ev :=
  destruct c as [u url input queue label lines ws delay maxd conn ph sch w sl];
  destruct ev as [[e|h e|h]|o| |o|text| |]; destruct ph; simpl in *;
  unfold send_message, process_message_queue, connection_lost, send_ws_message,
    receive, connect, wake;
  simpl in *;
  repeat (case_match; simpl in *).

Lemma step_username c ev : username (step c ev) = username c.
Proof. client_cases c ev; subst; done. Qed.

Lemma step_joined c ev : joined c → joined (step c ev).
Proof.
  unfold joined, joined_before_talking. intros [Hws Hwire].
  client_cases c ev; subst; simpl in *;
    (split;
     [ intros ? Hc; try discriminate Hc; try (injection Hc as <-);
       rewrite ?elem_of_app, ?list_elem_of_singleton; eauto
     | intros ? ? ? ?; rewrite ?elem_of_app, ?list_elem_of_singleton; intros Hin;
       repeat match goal with H : _ ∨ _ |- _ => destruct H end;
       try match goal with
           | H : (_, _) = (_, _) |- _ =>
               first [discriminate H | injection H as -> -> -> ->]
           end;
       try match goal with
           | H : _ ∈ _ |- _ => destruct (Hwire _ _ _ _ H) as [? ?]
           end;
       eauto ]).
Qed.

(** X22: the client talks only where it has joined.  In every state the
    client reaches, each chat message on the wire went to a connection on
    which the client's [join] frame was written, and bears the client's
    own user name. *)
Theorem client_joins_before_talking username url evs :
  joined_before_talking (run (init username url) evs).
Proof.
  assert (joined (init username url)) as Hinit.
  { split; [done|]. intros ? ? ? ? Hin. by apply elem_of_nil in Hin. }
  revert Hinit. generalize (init username url).
  induction evs as [|ev evs IH]; intros c Hc; simpl.
  - by destruct Hc.
  - apply IH. by apply step_joined.
Qed.

Lemma client_joins_before_talking_witness :
  let c := run (init "ann" "wss://localhost:8765")
             [Connect (Joined 7%nat); Typed "hi"; PressSend; RunSend (Sent "12:00")] in
  (7%nat, Message "ann" "hi" "12:00") ∈ wire c
  ∧ (7%nat, Join (Client.username c)) ∈ wire c.
Proof.
  intros c.
  assert ((7%nat, Message "ann" "hi" "12:00") ∈ wire c) as Hin
    by (vm_compute; apply list_elem_of_further, list_elem_of_here).
  split; [exact Hin|].
  exact (proj1 (client_joins_before_talking "ann" "wss://localhost:8765"
                  [Connect (Joined 7%nat); Typed "hi"; PressSend; RunSend (Sent "12:00")]
                  _ _ _ _ Hin)).
Defined.

(** ** A connection lost in the receive loop *)

Lemma recv_after_joining c connection base outcome :
  connected c = true → websocket c = Some connection →
  phase c = Receiving ∨ phase c = Sleeping →
  (∃ chats, message_queue c = base ++ chats ∧ Forall is_chat chats) →
  let c' := step c (Recv outcome) in
  connected c' = true ∧ websocket c' = Some connection
  ∧ (phase c' = Receiving ∨ phase c' = Sleeping)
  ∧ (∃ chats, message_queue c' = base ++ chats ∧ Forall is_chat chats)
  ∧ (phase c = Sleeping → phase c' = Sleeping)
  ∧ (outcome = ConnectionClosed → phase c' = Sleeping).
Proof.
  intros Hconn Hws Hphase (chats & Hqueue & Hchats).
  destruct c as [u url input queue label lines ws delay maxd conn ph sch w sl].
  simpl in *. subst conn ws queue.
  destruct Hphase as [-> | ->]; [|by repeat split; eauto].
  destruct outcome as [time user content|content| | | |];
    simpl; repeat split; eauto; try done.
  - exists (chats ++ [CHAT ("[" +:+ time +:+ "] " +:+ user +:+ ": " +:+ content)]).
    rewrite app_assoc. split; [done|].
    apply Forall_app. split; [done|]. by apply Forall_singleton.
  - exists (chats ++ [CHAT ("System: " +:+ content)]).
    rewrite app_assoc. split; [done|].
    apply Forall_app. split; [done|]. by apply Forall_singleton.
Qed.

Lemma stays_asleep outcomes c :
  phase c = Sleeping → phase (run c (Recv <$> outcomes)) = Sleeping.
Proof.
  revert c. induction outcomes as [|outcome outcomes IH]; intros c Hphase; [done|].
  rewrite fmap_cons.
  change (run c (Recv outcome :: (Recv <$> outcomes)))
    with (run (step c (Recv outcome)) (Recv <$> outcomes)).
  apply IH. unfold step. by rewrite Hphase.
Qed.

(** X23: a connection lost in the receive loop goes unreported.  After a
    successful connection, whatever the receive loop gets, the client
    keeps [connected = True] and its [websocket], and the queue holds the
    "Connected" status followed by chat lines only; once the loop has
    seen the connection closed the client is asleep before its next
    attempt, still marked connected, and no status says so. *)
Theorem lost_connection_goes_unreported c connection outcomes :
  phase c = Connecting →
  let c' := run (step c (Connect (Joined connection))) (Recv <$> outcomes) in
  connected c' = true ∧ websocket c' = Some connection
  ∧ (∃ chats, message_queue c'
              = (message_queue c ++ [STATUS "Connected" "green"]) ++ chats
            ∧ Forall is_chat chats)
  ∧ (ConnectionClosed ∈ outcomes → phase c' = Sleeping).
Proof.
  intros Hphase.
  set (c1 := step c (Connect (Joined connection))).
  assert (connected c1 = true ∧ websocket c1 = Some connection
          ∧ (phase c1 = Receiving ∨ phase c1 = Sleeping)
          ∧ ∃ chats, message_queue c1
                     = (message_queue c ++ [STATUS "Connected" "green"]) ++ chats
                     ∧ Forall is_chat chats) as Hc1.
  { unfold c1, step. rewrite Hphase. simpl. repeat split; [by left|].
    exists []. by rewrite app_nil_r. }
  clearbody c1. revert c1 Hc1.
  induction outcomes as [|outcome outcomes IH];
    intros c1 (Hconn & Hws & Hph & Hqueue).
  - repeat split; try done. intros Hin. by apply elem_of_nil in Hin.
  - rewrite fmap_cons.
    change (run c1 (Recv outcome :: (Recv <$> outcomes)))
      with (run (step c1 (Recv outcome)) (Recv <$> outcomes)).
    destruct (recv_after_joining c1 connection _ outcome Hconn Hws Hph Hqueue)
      as (Hconn' & Hws' & Hph' & Hqueue' & Hsleep & Hclosed).
    destruct (IH (step c1 (Recv outcome)) (conj Hconn' (conj Hws' (conj Hph' Hqueue'))))
      as (Hconn2 & Hws2 & Hqueue2 & Hclosed2).
    repeat split; try done.
    rewrite elem_of_cons. intros [<- | Hin]; [|by apply Hclosed2].
    apply stays_asleep. by apply Hclosed.
Qed.

Lemma lost_connection_goes_unreported_witness :
  let c := init "ann" "wss://localhost:8765" in
  let c' := run (step c (Connect (Joined 7%nat)))
              (Recv <$> [SystemNotice "welcome"; ConnectionClosed]) in
  connected c' = true ∧ websocket c' = Some 7%nat
  ∧ (∃ chats, message_queue c'
              = (message_queue c ++ [STATUS "Connected" "green"]) ++ chats
            ∧ Forall is_chat chats)
  ∧ (ConnectionClosed ∈ [SystemNotice "welcome"; ConnectionClosed] →
     phase c' = Sleeping).
Proof.
  intros c.
  apply (lost_connection_goes_unreported c 7%nat [SystemNotice "welcome"; ConnectionClosed]).
  reflexivity.
Defined.
End more_client_facts.
